(** * Omen exchange: the CPK transaction-batch orchestrator

    A shallow embedding of [services/cpk.ts] (class [CPKService]) and of the
    static [ConditionalTokenService] of [services/conditional_token.ts].

    The [async] methods of the source talk to collaborators (the signer, the
    chain provider, the contract service wrappers, the proxy kit).  Every such
    call may reject.  A method is embedded as a computation in a small
    trace-and-exception monad: it yields the chronological list of the
    collaborator calls it made together with either a value or the thrown
    error.  The answers of the collaborators are fields of the records that
    stand for the service objects. *)

From Stdlib Require Import ZArith List String Ascii Bool Lia QArith.
Import ListNotations.
Local Open Scope Z_scope.
Local Open Scope string_scope.
Local Open Scope list_scope.

Set Implicit Arguments.

(** ** JavaScript values used by the services *)

(** [ethers] v4 [BigNumber]: an arbitrary precision integer. *)
Definition BigNumber := Z.

(** A JS [Error]; only its [message] is ever read. *)
Record Error := mkError { message : string }.

(** Outcome of awaiting a promise (or of a synchronous call that may throw). *)
Inductive result (A : Type) : Type :=
| Ok (a : A)
| Throw (e : Error).
Arguments Ok {A} a.
Arguments Throw {A} e.

Definition is_ok {A} (r : result A) : bool :=
  match r with Ok _ => true | Throw _ => false end.

(** [String.prototype.toLowerCase], on the ASCII strings the services handle
    (hexadecimal addresses): [A]..[Z] are mapped to [a]..[z], every other
    byte is kept. *)
Definition lower_ascii (c : ascii) : ascii :=
  let n := nat_of_ascii c in
  if (Nat.leb 65 n && Nat.leb n 90)%bool then ascii_of_nat (n + 32) else c.

Fixpoint toLowerCase (s : string) : string :=
  match s with
  | EmptyString => EmptyString
  | String c s' => String (lower_ascii c) (toLowerCase s')
  end.

(** Truthiness of a JS string that may be [null]/[undefined]: the empty
    string is falsy. *)
Definition truthy_string (s : option string) : bool :=
  match s with
  | None => false
  | Some s' => negb (String.eqb s' "")
  end.

(** Truthiness of a value that is an object ([BigNumber], [Date]) or
    [null]/[undefined]: every object is truthy, whatever it holds. *)
Definition truthy_object {A} (o : option A) : bool :=
  match o with
  | None => false
  | Some _ => true
  end.

(** [ethers.constants.HashZero] *)
Definition HashZero : string :=
  "0x0000000000000000000000000000000000000000000000000000000000000000".

(** ** Call descriptors *)

Definition Date := Z.

Record Outcome := mkOutcome { name : string; probability : Q }.

(** Modelled from the spec: the static [encode...] functions of
    [ERC20Service], [MarketMakerService], [MarketMakerFactoryService],
    [RealitioService], [OracleService] and of the instance-based
    [ConditionalTokenService] are absent from the sources.  The spec's
    CallEncoder is pure and returns an opaque payload per logical operation;
    a payload is kept symbolic, one constructor per encoder, holding the
    arguments the orchestrator passes. *)
Inductive calldata : Type :=
| encodeTransferFrom (from to : string) (amount : BigNumber)
| encodeTransfer (to : string) (amount : BigNumber)
| encodeApproveUnlimited (spender : string)
| encodeBuy (amount : BigNumber) (outcomeIndex : Z) (outcomeTokensToBuy : BigNumber)
| encodeSell (amount : BigNumber) (outcomeIndex : Z) (outcomeTokensToSell : BigNumber)
| encodeAddFunding (amount : BigNumber)
| encodeRemoveFunding (sharesToBurn : BigNumber)
| encodeAskQuestion (question : string) (outcomes : list Outcome) (category : string)
    (arbitrator : string) (openingDateMoment : Date) (networkId : Z)
| encodePrepareCondition (questionId oracleAddress : string) (outcomeSlotCount : Z)
| encodeSetApprovalForAll (operator : string) (approved : bool)
| encodeMergePositions (collateralAddress conditionId : string) (outcomesCount : Z)
    (amount : BigNumber)
| encodeRedeemPositions (collateralAddress conditionId : string) (numOutcomes : Z)
| encodeResolveCondition (questionId : string) (templateId : Z) (raw : string)
    (numOutcomes : Z)
| encodeCreateMarketMaker (saltNonce : Z) (conditionalTokensAddress collateralAddress
    conditionId : string) (spread : Q) (funding : BigNumber) (distributionHint : list BigNumber)
| encodeChangeMasterCopy (masterCopy : string).

(** One element of the array handed to [cpk.execTransactions]: the object
    literal [{ to, data?, value? }]. *)
Record Transaction := mkTx {
  to : string;
  data : option calldata;
  value : option BigNumber }.

Definition tx_data (target : string) (payload : calldata) : Transaction :=
  mkTx target (Some payload) None.

Definition tx_value (target : string) (v : BigNumber) : Transaction :=
  mkTx target None (Some v).

(** [interface TxOptions { value?: BigNumber; gas?: number }] *)
Record TxOptions := mkTxOptions {
  opt_value : option BigNumber;
  opt_gas : option Z }.

Definition TransactionReceipt := string.

(** ** Collaborator calls and the trace *)

(** Calls on the [conditionalTokens] contract made through [ethers.Contract]
    by the static service (see [conditionTokenAbi]). *)
Inductive ctcall : Type :=
| call_payoutNumerators (conditionId : string) (index : Z)
| call_payoutDenominator (conditionId : string)
| call_redeemPositions (collateralToken parentCollectionId conditionId : string)
    (indexSets : list Z).

(** The read-only or fallible calls a workflow awaits before it submits. *)
Inductive query : Type :=
| QSignerAddress
| QNetwork
| QCollateralToken
| QCalcBuyAmount (amount : BigNumber) (outcomeIndex : Z)
| QCalcSellAmount (amount : BigNumber) (outcomeIndex : Z)
| QAllowance (token owner spender : string)
| QIsApprovedForAll (owner operator : string)
| QAskQuestionConstant
| QDoesConditionExist (conditionId : string)
| QPredictMarketMakerAddress (saltNonce : Z)
| QMarketConditionId
| QIsProxyDeployed
| QMasterCopy
| QGetToken (networkId : Z) (tokenId : string)
| QGetContractAddress (networkId : Z) (contract : string)
| QContractCall (address : string) (c : ctcall).

(** What a method did, in order.  The flag of an event tells whether the
    call resolved ([true]) or rejected ([false]).  A logger event keeps the
    fixed words of its message; the values interpolated into it are left
    out. *)
Inductive event : Type :=
| EvQuery (q : query) (ok : bool)
| EvSubmit (transactions : list Transaction) (txOptions : option TxOptions) (ok : bool)
| EvWait (hash : string) (ok : bool)
| EvSend (address : string) (c : ctcall) (ok : bool)
| EvLog (text : string)
| EvLogError (text : string) (errMessage : string).

Definition trace := list event.

(** ** The monad of the async methods *)

Definition M (A : Type) : Type := (trace * result A)%type.

Definition ret {A} (a : A) : M A := ([], Ok a).

Definition throw {A} (e : Error) : M A := ([], Throw e).

Definition bind {A B} (m : M A) (f : A -> M B) : M B :=
  match m with
  | (t1, Ok a) => let (t2, r) := f a in (t1 ++ t2, r)
  | (t1, Throw e) => (t1, Throw e)
  end.

(** [try { m } catch (err) { handler err }] *)
Definition try_catch {A} (m : M A) (handler : Error -> M A) : M A :=
  match m with
  | (t1, Ok a) => (t1, Ok a)
  | (t1, Throw e) => let (t2, r) := handler e in (t1 ++ t2, r)
  end.

Declare Scope async_scope.
Delimit Scope async_scope with async.
Notation "x <- m ;; k" := (bind m (fun x => k))
  (at level 61, m at next level, right associativity) : async_scope.
Notation "m ;; k" := (bind m (fun _ => k))
  (at level 61, right associativity) : async_scope.
Notation "' pat <- m ;; k" := (bind m (fun x => match x with pat => k end))
  (at level 61, pat pattern, m at next level, right associativity) : async_scope.
Local Open Scope async_scope.

Definition emit (e : event) : M unit := ([e], Ok tt).

(** Awaiting a collaborator whose answer is [r]. *)
Definition ask {A} (q : query) (r : result A) : M A := ([EvQuery q (is_ok r)], r).

Definition log (text : string) : M unit := emit (EvLog text).

(** [logger.error(text, err.message); throw err] *)
Definition log_and_rethrow {A} (text : string) (err : Error) : M A :=
  emit (EvLogError text (message err)) ;; throw err.

Definition trace_of {A} (m : M A) : trace := fst m.
Definition result_of {A} (m : M A) : result A := snd m.

(** The batches handed to [execTransactions], in order. *)
Fixpoint submissions (t : trace) : list (list Transaction * option TxOptions) :=
  match t with
  | [] => []
  | EvSubmit txs o _ :: t' => (txs, o) :: submissions t'
  | _ :: t' => submissions t'
  end.

(** The collaborator queries awaited, in order. *)
Fixpoint queries (t : trace) : list query :=
  match t with
  | [] => []
  | EvQuery q _ :: t' => q :: queries t'
  | _ :: t' => queries t'
  end.

(** Some awaited query rejected. *)
Fixpoint query_failed (t : trace) : bool :=
  match t with
  | [] => false
  | EvQuery _ false :: _ => true
  | _ :: t' => query_failed t'
  end.

(** ** Module-level imports of the services *)

(** [Token] of [util/types]. *)
Module Token.
Record t := mk { address : string; decimals : Z; symbol : string }.
End Token.

(** The imports from [util/networks] ([util/addresses] for the static
    service) and [util/tools], whose sources are absent, and the draw of
    [Math.random].  They are taken as given. *)
Record Env := mkEnv {
  pseudoEthAddress : string;
  targetGnosisSafeImplementation : string;
  (** may throw on an unknown network or token *)
  getToken : Z -> string -> result Token.t;
  (** may throw on an unknown network *)
  getContractAddress : Z -> string -> result string;
  calcDistributionHint : list Q -> list BigNumber;
  (** the value of [Math.round(Math.random() * 1000000)] *)
  randomSaltNonce : Z }.

(** ** The collaborators of [CPKService]

    Each record stands for a service object; a field that is a [result] is
    the outcome of awaiting the method of that name. *)

Module Web3Provider.
Record t := mk {
    (** [getSigner().getAddress()] *)
    getAddress : result string;
    (** [getNetwork()], reduced to its [chainId] *)
    getNetwork : result Z;
    waitForTransaction : string -> result TransactionReceipt;
    (** [allowance(owner, spender)] of the ERC-20 contract at [token] *)
    allowance : string -> string -> string -> result BigNumber }.
End Web3Provider.

Module MarketMakerService.
Record t := mk {
    address : string;
    getCollateralToken : result string;
    getConditionId : result string;
    calcBuyAmount : BigNumber -> Z -> result BigNumber;
    calcSellAmount : BigNumber -> Z -> result BigNumber }.
End MarketMakerService.

Module RealitioService.
Record t := mk {
    address : string;
    askQuestionConstant :
      string -> list Outcome -> string -> string -> Date -> Z -> string -> result string }.
End RealitioService.

Module MarketMakerFactoryService.
Record t := mk {
    address : string;
    predictMarketMakerAddress :
      Z -> string -> string -> string -> string -> Q -> result string }.
End MarketMakerFactoryService.

Module OracleService.
Record t := mk { address : string }.
End OracleService.

(** The proxy kit object [cpk] and the [proxy] contract. *)
Module CPK.
Record t := mk {
    address : string;
    (** resolves to the transaction object, reduced to its [hash] *)
    execTransactions : list Transaction -> option TxOptions -> result string;
    isProxyDeployed : result bool }.
End CPK.

Module Proxy.
Record t := mk { masterCopy : result string }.
End Proxy.

Module Arbitrator.
Record t := mk { address : string }.
End Arbitrator.

(** [MarketData] and [Question] of [util/types], with the fields the
    workflows read. *)
Module MarketData.
Record t := mk {
    arbitrator : Arbitrator.t;
    category : string;
    collateral : Token.t;
    funding : BigNumber;
    loadedQuestionId : option string;
    outcomes : list Outcome;
    question : string;
    resolution : option Date;
    spread : Q }.
End MarketData.

Module Question.
Record t := mk { id : string; templateId : Z; raw : string }.
End Question.

(** ** [ConditionalTokenService] *)

(** [WinnerOutcome] of [util/types], whose source is absent: the two members
    the service names. *)
Inductive WinnerOutcome : Type := Yes | No.

Module ConditionalTokenService.

  (** The instance handed to [CPKService] as [conditionalTokens]. *)
Record t := mk {
    address : string;
    getConditionId : string -> string -> Z -> string;
    doesConditionExist : string -> result bool;
    isApprovedForAll : string -> string -> result bool }.

  (** The [provider: any] of the static methods: what a view call and a
      signed transaction on the contract at an address answer. *)
Record Provider := mkProvider {
    call : string -> ctcall -> result BigNumber;
    send : string -> ctcall -> result string }.

Section Static.
Variable env : Env.

Definition isConditionResolved (conditionId : string) (networkId : Z)
        (provider : Provider) : M bool :=
      conditionalTokensAddress <-
        ask (QGetContractAddress networkId "conditionalTokens")
            (getContractAddress env networkId "conditionalTokens") ;;
      payoutDenominator <-
        ask (QContractCall conditionalTokensAddress (call_payoutDenominator conditionId))
            (call provider conditionalTokensAddress (call_payoutDenominator conditionId)) ;;
      ret (negb (Z.eqb payoutDenominator 0)).

Definition redeemPositions (collateralToken conditionId : string) (networkId : Z)
        (provider : Provider) : M string :=
      conditionalTokensAddress <-
        ask (QGetContractAddress networkId "conditionalTokens")
            (getContractAddress env networkId "conditionalTokens") ;;
      let c := call_redeemPositions collateralToken HashZero conditionId [1; 2] in
      let r := send provider conditionalTokensAddress c in
      (([EvSend conditionalTokensAddress c (is_ok r)], r) : M string).

Definition getWinnerOutcome (conditionId : string) (networkId : Z)
        (provider : Provider) : M WinnerOutcome :=
      conditionalTokensAddress <-
        ask (QGetContractAddress networkId "conditionalTokens")
            (getContractAddress env networkId "conditionalTokens") ;;
      yesNumerator <-
        ask (QContractCall conditionalTokensAddress (call_payoutNumerators conditionId 0))
            (call provider conditionalTokensAddress (call_payoutNumerators conditionId 0)) ;;
      ret (if Z.eqb yesNumerator 0 then No else Yes).

End Static.
End ConditionalTokenService.

(** ** [ERC20Service] *)

Module ERC20Service.
  (** Modelled from the spec: [ERC20Service.hasEnoughAllowance] is absent from
      the sources.  The spec's gateway reads [getAllowance(owner, spender,
      token)] and an approval is needed when that allowance is insufficient
      for the requested amount: the method reads the allowance and answers
      whether it is at least the needed amount. *)
Definition hasEnoughAllowance (provider : Web3Provider.t) (tokenAddress owner spender : string)
      (neededAmount : BigNumber) : M bool :=
    allowance <- ask (QAllowance tokenAddress owner spender)
                     (Web3Provider.allowance provider tokenAddress owner spender) ;;
    ret (Z.leb neededAmount allowance).
End ERC20Service.

(** ** Parameter objects of the workflows *)

Module CPKBuyOutcomesParams.
Record t := mk {
    amount : BigNumber;
    outcomeIndex : Z;
    marketMaker : MarketMakerService.t }.
End CPKBuyOutcomesParams.

Module CPKSellOutcomesParams.
Record t := mk {
    amount : BigNumber;
    outcomeIndex : Z;
    marketMaker : MarketMakerService.t;
    conditionalTokens : ConditionalTokenService.t }.
End CPKSellOutcomesParams.

Module CPKCreateMarketParams.
Record t := mk {
    marketData : MarketData.t;
    conditionalTokens : ConditionalTokenService.t;
    realitio : RealitioService.t;
    marketMakerFactory : MarketMakerFactoryService.t }.
End CPKCreateMarketParams.

Module CPKAddFundingParams.
Record t := mk {
    amount : BigNumber;
    collateral : Token.t;
    marketMaker : MarketMakerService.t }.
End CPKAddFundingParams.

Module CPKRemoveFundingParams.
Record t := mk {
    amountToMerge : BigNumber;
    collateralAddress : string;
    conditionId : string;
    conditionalTokens : ConditionalTokenService.t;
    earnings : BigNumber;
    marketMaker : MarketMakerService.t;
    outcomesCount : Z;
    sharesToBurn : BigNumber }.
End CPKRemoveFundingParams.

Module CPKRedeemParams.
  (** [earnedCollateral] is declared a [BigNumber] and tested for truthiness
      by the workflow: [None] is [null]/[undefined], [Some n] a [BigNumber]
      object of value [n]. *)
Record t := mk {
    isConditionResolved : bool;
    question : Question.t;
    numOutcomes : Z;
    earnedCollateral : option BigNumber;
    collateralToken : Token.t;
    oracle : OracleService.t;
    marketMaker : MarketMakerService.t;
    conditionalTokens : ConditionalTokenService.t }.
End CPKRedeemParams.

(** ** [CPKService] *)

Module CPKService.

Record t := mk {
    cpk : CPK.t;
    provider : Web3Provider.t;
    proxy : Proxy.t }.

  (** [await this.cpk.execTransactions(transactions, txOptions)] *)
Definition execTransactions (self : t) (transactions : list Transaction)
      (txOptions : option TxOptions) : M string :=
    let r := CPK.execTransactions (cpk self) transactions txOptions in
    ([EvSubmit transactions txOptions (is_ok r)], r).

  (** [this.provider.waitForTransaction(hash)] *)
Definition waitForTransaction (self : t) (hash : string) : M TransactionReceipt :=
    let r := Web3Provider.waitForTransaction (provider self) hash in
    ([EvWait hash (is_ok r)], r).

Definition getAddress (self : t) : M string :=
    ask QSignerAddress (Web3Provider.getAddress (provider self)).

Definition getNetwork (self : t) : M Z :=
    ask QNetwork (Web3Provider.getNetwork (provider self)).

Section Workflows.
Variable env : Env.
Variable self : t.

Let cpkAddress : string := CPK.address (cpk self).

    (** The promise of [waitForTransaction] is returned from inside the [try]
        without being awaited there: its rejection passes by the [catch]. *)
Definition buyOutcomes (p : CPKBuyOutcomesParams.t) : M TransactionReceipt :=
      let amount := CPKBuyOutcomesParams.amount p in
      let marketMaker := CPKBuyOutcomesParams.marketMaker p in
      let outcomeIndex := CPKBuyOutcomesParams.outcomeIndex p in
      hash <- try_catch
        (account <- getAddress self ;;
         collateralAddress <-
           ask QCollateralToken (MarketMakerService.getCollateralToken marketMaker) ;;
         let marketMakerAddress := MarketMakerService.address marketMaker in
         log "CPK address" ;;
         outcomeTokensToBuy <-
           ask (QCalcBuyAmount amount outcomeIndex)
               (MarketMakerService.calcBuyAmount marketMaker amount outcomeIndex) ;;
         log "Min outcome tokens to buy" ;;
         let transactions :=
           [ tx_data collateralAddress (encodeTransferFrom account cpkAddress amount);
             tx_data marketMakerAddress (encodeBuy amount outcomeIndex outcomeTokensToBuy) ] in
         hasCPKEnoughAlowance <-
           ERC20Service.hasEnoughAllowance (provider self) collateralAddress
             cpkAddress marketMakerAddress amount ;;
         let transactions :=
           if negb hasCPKEnoughAlowance
           then tx_data collateralAddress (encodeApproveUnlimited marketMakerAddress)
                  :: transactions
           else transactions in
         hash <- execTransactions self transactions None ;;
         log "Transaction hash" ;;
         ret hash)
        (log_and_rethrow "There was an error buying shares") ;;
      waitForTransaction self hash.

Definition createMarket (p : CPKCreateMarketParams.t) : M string :=
      let conditionalTokens := CPKCreateMarketParams.conditionalTokens p in
      let marketData := CPKCreateMarketParams.marketData p in
      let marketMakerFactory := CPKCreateMarketParams.marketMakerFactory p in
      let realitio := CPKCreateMarketParams.realitio p in
      try_catch
        (let arbitrator := MarketData.arbitrator marketData in
         let category := MarketData.category marketData in
         let loadedQuestionId := MarketData.loadedQuestionId marketData in
         let outcomes := MarketData.outcomes marketData in
         let question := MarketData.question marketData in
         let spread := MarketData.spread marketData in
         match MarketData.resolution marketData with
         | None => throw (mkError "Resolution time was not specified")
         | Some resolution =>
           account <- getAddress self ;;
           networkId <- getNetwork self ;;
           let conditionalTokensAddress := ConditionalTokenService.address conditionalTokens in
           let realitioAddress := RealitioService.address realitio in
           let openingDateMoment := resolution in
           let transactions : list Transaction := [] in
           let txOptions := mkTxOptions None None in
           let isNative :=
             String.eqb (Token.address (MarketData.collateral marketData))
                        (pseudoEthAddress env) in
           '(collateral, txOptions, transactions) <-
             (if isNative
              then
                collateral <- ask (QGetToken networkId "weth") (getToken env networkId "weth") ;;
                ret (collateral,
                     mkTxOptions (Some (MarketData.funding marketData)) (opt_gas txOptions),
                     transactions ++
                       [tx_value (Token.address collateral) (MarketData.funding marketData)])
              else ret (MarketData.collateral marketData, txOptions, transactions)) ;;
           let askBranch : M (string * list Transaction) :=
             let transactions := transactions ++
               [tx_data realitioAddress
                  (encodeAskQuestion question outcomes category (Arbitrator.address arbitrator)
                     openingDateMoment networkId)] in
             questionId <-
               ask QAskQuestionConstant
                 (RealitioService.askQuestionConstant realitio question outcomes category
                    (Arbitrator.address arbitrator) openingDateMoment networkId cpkAddress) ;;
             ret (questionId, transactions) in
           '(questionId, transactions) <-
             match loadedQuestionId with
             | Some q => if String.eqb q "" then askBranch else ret (q, transactions)
             | None => askBranch
             end ;;
           log "QuestionID" ;;
           oracleAddress <-
             ask (QGetContractAddress networkId "oracle")
                 (getContractAddress env networkId "oracle") ;;
           let outcomesLength := Z.of_nat (List.length outcomes) in
           let conditionId :=
             ConditionalTokenService.getConditionId conditionalTokens questionId
               oracleAddress outcomesLength in
           conditionExists <-
             (if truthy_string loadedQuestionId
              then ask (QDoesConditionExist conditionId)
                       (ConditionalTokenService.doesConditionExist conditionalTokens conditionId)
              else ret false) ;;
           transactions <-
             (if negb conditionExists
              then
                log "Adding prepareCondition transaction" ;;
                ret (transactions ++
                       [tx_data conditionalTokensAddress
                          (encodePrepareCondition questionId oracleAddress outcomesLength)])
              else ret transactions) ;;
           log "ConditionID" ;;
           let transactions := transactions ++
             [tx_data (Token.address collateral)
                (encodeApproveUnlimited (MarketMakerFactoryService.address marketMakerFactory))] in
           let transactions :=
             if negb isNative
             then transactions ++
                    [tx_data (Token.address collateral)
                       (encodeTransferFrom account cpkAddress (MarketData.funding marketData))]
             else transactions in
           let saltNonce := randomSaltNonce env in
           predictedMarketMakerAddress <-
             ask (QPredictMarketMakerAddress saltNonce)
                 (MarketMakerFactoryService.predictMarketMakerAddress marketMakerFactory
                    saltNonce conditionalTokensAddress (Token.address collateral)
                    conditionId cpkAddress spread) ;;
           log "Predicted market maker address" ;;
           let distributionHint :=
             calcDistributionHint env (map probability (MarketData.outcomes marketData)) in
           let transactions := transactions ++
             [tx_data (MarketMakerFactoryService.address marketMakerFactory)
                (encodeCreateMarketMaker saltNonce conditionalTokensAddress
                   (Token.address collateral) conditionId spread
                   (MarketData.funding marketData) distributionHint)] in
           hash <- execTransactions self transactions (Some txOptions) ;;
           log "Transaction hash" ;;
           waitForTransaction self hash ;;
           ret predictedMarketMakerAddress
         end)
        (log_and_rethrow "There was an error creating the market maker").

Definition sellOutcomes (p : CPKSellOutcomesParams.t) : M TransactionReceipt :=
      let amount := CPKSellOutcomesParams.amount p in
      let conditionalTokens := CPKSellOutcomesParams.conditionalTokens p in
      let marketMaker := CPKSellOutcomesParams.marketMaker p in
      let outcomeIndex := CPKSellOutcomesParams.outcomeIndex p in
      hash <- try_catch
        (account <- getAddress self ;;
         outcomeTokensToSell <-
           ask (QCalcSellAmount amount outcomeIndex)
               (MarketMakerService.calcSellAmount marketMaker amount outcomeIndex) ;;
         collateralAddress <-
           ask QCollateralToken (MarketMakerService.getCollateralToken marketMaker) ;;
         let transactions : list Transaction := [] in
         isAlreadyApprovedForMarketMaker <-
           ask (QIsApprovedForAll cpkAddress (MarketMakerService.address marketMaker))
               (ConditionalTokenService.isApprovedForAll conditionalTokens cpkAddress
                  (MarketMakerService.address marketMaker)) ;;
         let transactions :=
           if negb isAlreadyApprovedForMarketMaker
           then transactions ++
                  [tx_data (ConditionalTokenService.address conditionalTokens)
                     (encodeSetApprovalForAll (MarketMakerService.address marketMaker) true)]
           else transactions in
         let transactions := transactions ++
           [ tx_data (MarketMakerService.address marketMaker)
               (encodeSell amount outcomeIndex outcomeTokensToSell);
             tx_data collateralAddress (encodeTransfer account amount) ] in
         hash <- execTransactions self transactions None ;;
         log "Transaction hash" ;;
         ret hash)
        (log_and_rethrow "There was an error selling shares") ;;
      waitForTransaction self hash.

Definition addFunding (p : CPKAddFundingParams.t) : M TransactionReceipt :=
      let amount := CPKAddFundingParams.amount p in
      let collateral := CPKAddFundingParams.collateral p in
      let marketMaker := CPKAddFundingParams.marketMaker p in
      hash <- try_catch
        (account <- getAddress self ;;
         networkId <- getNetwork self ;;
         let transactions : list Transaction := [] in
         let txOptions := mkTxOptions None None in
         let isNative := String.eqb (Token.address collateral) (pseudoEthAddress env) in
         '(collateralAddress, txOptions, transactions) <-
           (if isNative
            then
              weth <- ask (QGetToken networkId "weth") (getToken env networkId "weth") ;;
              let collateralAddress := Token.address weth in
              ret (collateralAddress,
                   mkTxOptions (Some amount) (opt_gas txOptions),
                   transactions ++ [tx_value collateralAddress amount])
            else ret (Token.address collateral, txOptions, transactions)) ;;
         hasCPKEnoughAlowance <-
           ERC20Service.hasEnoughAllowance (provider self) collateralAddress
             cpkAddress (MarketMakerService.address marketMaker) amount ;;
         let transactions :=
           if negb hasCPKEnoughAlowance
           then transactions ++
                  [tx_data collateralAddress
                     (encodeApproveUnlimited (MarketMakerService.address marketMaker))]
           else transactions in
         let transactions :=
           if negb isNative
           then transactions ++
                  [tx_data collateralAddress (encodeTransferFrom account cpkAddress amount)]
           else transactions in
         let transactions := transactions ++
           [tx_data (MarketMakerService.address marketMaker) (encodeAddFunding amount)] in
         hash <- execTransactions self transactions (Some txOptions) ;;
         log "Transaction hash" ;;
         ret hash)
        (log_and_rethrow "There was an error adding an amount for funding") ;;
      waitForTransaction self hash.

Definition removeFunding (p : CPKRemoveFundingParams.t) : M TransactionReceipt :=
      let amountToMerge := CPKRemoveFundingParams.amountToMerge p in
      let collateralAddress := CPKRemoveFundingParams.collateralAddress p in
      let conditionId := CPKRemoveFundingParams.conditionId p in
      let conditionalTokens := CPKRemoveFundingParams.conditionalTokens p in
      let earnings := CPKRemoveFundingParams.earnings p in
      let marketMaker := CPKRemoveFundingParams.marketMaker p in
      let outcomesCount := CPKRemoveFundingParams.outcomesCount p in
      let sharesToBurn := CPKRemoveFundingParams.sharesToBurn p in
      hash <- try_catch
        (account <- getAddress self ;;
         let removeFundingTx :=
           tx_data (MarketMakerService.address marketMaker)
             (encodeRemoveFunding sharesToBurn) in
         let mergePositionsTx :=
           tx_data (ConditionalTokenService.address conditionalTokens)
             (encodeMergePositions collateralAddress conditionId outcomesCount amountToMerge) in
         let transferCollateralTx :=
           tx_data collateralAddress (encodeTransfer account (amountToMerge + earnings)) in
         let transactions := [removeFundingTx; mergePositionsTx; transferCollateralTx] in
         hash <- execTransactions self transactions None ;;
         log "Transaction hash" ;;
         ret hash)
        (log_and_rethrow "There was an error removing amount for funding") ;;
      waitForTransaction self hash.

Definition redeemPositions (p : CPKRedeemParams.t) : M TransactionReceipt :=
      let collateralToken := CPKRedeemParams.collateralToken p in
      let conditionalTokens := CPKRedeemParams.conditionalTokens p in
      let earnedCollateral := CPKRedeemParams.earnedCollateral p in
      let isConditionResolved := CPKRedeemParams.isConditionResolved p in
      let marketMaker := CPKRedeemParams.marketMaker p in
      let numOutcomes := CPKRedeemParams.numOutcomes p in
      let oracle := CPKRedeemParams.oracle p in
      let question := CPKRedeemParams.question p in
      hash <- try_catch
        (account <- getAddress self ;;
         let transactions : list Transaction := [] in
         let transactions :=
           if negb isConditionResolved
           then transactions ++
                  [tx_data (OracleService.address oracle)
                     (encodeResolveCondition (Question.id question)
                        (Question.templateId question) (Question.raw question) numOutcomes)]
           else transactions in
         conditionId <-
           ask QMarketConditionId (MarketMakerService.getConditionId marketMaker) ;;
         let transactions := transactions ++
           [tx_data (ConditionalTokenService.address conditionalTokens)
              (encodeRedeemPositions (Token.address collateralToken) conditionId numOutcomes)] in
         let transactions :=
           match earnedCollateral with
           | Some earned =>
               transactions ++
                 [tx_data (Token.address collateralToken) (encodeTransfer account earned)]
           | None => transactions
           end in
         hash <- execTransactions self transactions None ;;
         log "Transaction hash" ;;
         ret hash)
        (log_and_rethrow "Error trying to resolve condition or redeem for question id") ;;
      waitForTransaction self hash.

Definition proxyIsUpToDate : M bool :=
      deployed <- ask QIsProxyDeployed (CPK.isProxyDeployed (cpk self)) ;;
      if (deployed : bool)
      then
        implementation <- ask QMasterCopy (Proxy.masterCopy (proxy self)) ;;
        if String.eqb (toLowerCase implementation)
                      (toLowerCase (targetGnosisSafeImplementation env))
        then ret true
        else ret false
      else ret false.

Definition upgradeProxyImplementation : M TransactionReceipt :=
      hash <- try_catch
        (execTransactions self
           [tx_data cpkAddress (encodeChangeMasterCopy (targetGnosisSafeImplementation env))]
           None)
        (log_and_rethrow "Error trying to update proxy") ;;
      waitForTransaction self hash.

End Workflows.

  (** The six intents and the workflow each one runs. *)
Inductive intent : Type :=
  | Buy (p : CPKBuyOutcomesParams.t)
  | Sell (p : CPKSellOutcomesParams.t)
  | CreateMarket (p : CPKCreateMarketParams.t)
  | AddFunding (p : CPKAddFundingParams.t)
  | RemoveFunding (p : CPKRemoveFundingParams.t)
  | Redeem (p : CPKRedeemParams.t).

Definition run (env : Env) (self : t) (i : intent) : M string :=
    match i with
    | Buy p => buyOutcomes self p
    | Sell p => sellOutcomes self p
    | CreateMarket p => createMarket env self p
    | AddFunding p => addFunding env self p
    | RemoveFunding p => removeFunding self p
    | Redeem p => redeemPositions self p
    end.

End CPKService.

(** ** Vocabulary of the properties *)

(** Case-insensitive match of two ASCII strings, stated on the characters:
    same length, and at each position the same character or the two cases of
    one letter. *)
Definition is_upper (c : ascii) : bool :=
  (Nat.leb 65 (nat_of_ascii c) && Nat.leb (nat_of_ascii c) 90)%bool.

Definition caseless_ascii_eqb (a b : ascii) : bool :=
  (Ascii.eqb a b
   || (is_upper a && Nat.eqb (nat_of_ascii b) (nat_of_ascii a + 32))
   || (is_upper b && Nat.eqb (nat_of_ascii a) (nat_of_ascii b + 32)))%bool.

Fixpoint caseless_eqb (s1 s2 : string) : bool :=
  match s1, s2 with
  | EmptyString, EmptyString => true
  | String a s1', String b s2' => (caseless_ascii_eqb a b && caseless_eqb s1' s2')%bool
  | _, _ => false
  end.

(** Kinds of call descriptors. *)
Definition is_wrap (tx : Transaction) : bool :=
  match data tx, value tx with
  | None, Some _ => true
  | _, _ => false
  end.

Definition is_transfer_from (tx : Transaction) : bool :=
  match data tx with Some (encodeTransferFrom _ _ _) => true | _ => false end.

Definition is_transfer (tx : Transaction) : bool :=
  match data tx with Some (encodeTransfer _ _) => true | _ => false end.

Definition is_approve (tx : Transaction) : bool :=
  match data tx with Some (encodeApproveUnlimited _) => true | _ => false end.

Definition is_ask_question (tx : Transaction) : bool :=
  match data tx with Some (encodeAskQuestion _ _ _ _ _ _) => true | _ => false end.

Definition is_prepare_condition (tx : Transaction) : bool :=
  match data tx with Some (encodePrepareCondition _ _ _) => true | _ => false end.

Definition is_create_market_maker (tx : Transaction) : bool :=
  match data tx with Some (encodeCreateMarketMaker _ _ _ _ _ _ _) => true | _ => false end.

Definition is_resolve_condition (tx : Transaction) : bool :=
  match data tx with Some (encodeResolveCondition _ _ _ _) => true | _ => false end.

(** A submission or the wait for its inclusion rejected. *)
Fixpoint submit_or_wait_failed (t : trace) : bool :=
  match t with
  | [] => false
  | EvSubmit _ _ false :: _ => true
  | EvWait _ false :: _ => true
  | _ :: t' => submit_or_wait_failed t'
  end.

(** ** Concrete collaborators, for running the workflows *)

Module Sample.

Definition weth : Token.t := Token.mk "0xweth" 18 "WETH".
Definition dai : Token.t := Token.mk "0xdai" 18 "DAI".
Definition eth : Token.t :=
    Token.mk "0xeeeeeeeeeeeeeeeeeeeeeeeeeeeeeeeeeeeeeeee" 18 "ETH".

Definition env : Env :=
    mkEnv "0xeeeeeeeeeeeeeeeeeeeeeeeeeeeeeeeeeeeeeeee"
          "0xb6029EA3B2c51D09a50B53CA8012FeEB05bDa35A"
          (fun _ _ => Ok weth)
          (fun _ contract => Ok (String.append "0x" contract))
          (map (fun _ => 1))
          424242.

  (** A chain where the proxy has granted [granted] to every spender. *)
Definition provider (granted : BigNumber) : Web3Provider.t :=
    Web3Provider.mk (Ok "0xuser") (Ok 1)
      (fun hash => Ok (String.append "receipt of " hash))
      (fun _ _ _ => Ok granted).

Definition cpk (deployed : bool) : CPK.t :=
    CPK.mk "0xcpk" (fun _ _ => Ok "0xhash") (Ok deployed).

Definition self (granted : BigNumber) : CPKService.t :=
    CPKService.mk (cpk true) (provider granted)
      (Proxy.mk (Ok "0xB6029ea3b2C51d09A50b53ca8012fEeb05BdA35a")).

(** A service whose chain reads of allowances reject. *)
Definition offline : CPKService.t :=
CPKService.mk (cpk true)
  (Web3Provider.mk (Ok "0xuser") (Ok 1) (fun _ => Ok "receipt")
     (fun _ _ _ => Throw (mkError "network down")))
  (Proxy.mk (Ok "0xsafe")).

Definition marketMaker : MarketMakerService.t :=
    MarketMakerService.mk "0xmm" (Ok "0xdai") (Ok "0xcondition")
      (fun _ _ => Ok 95) (fun _ _ => Ok 105).

Definition conditionalTokens (exists_ : bool) : ConditionalTokenService.t :=
    ConditionalTokenService.mk "0xct"
      (fun questionId oracle _ => String.append questionId oracle)
      (fun _ => Ok exists_) (fun _ _ => Ok false).

Definition realitio : RealitioService.t :=
    RealitioService.mk "0xrealitio" (fun _ _ _ _ _ _ _ => Ok "0xquestion").

Definition factory : MarketMakerFactoryService.t :=
    MarketMakerFactoryService.mk "0xfactory" (fun _ _ _ _ _ _ => Ok "0xmarket").

Definition marketData (collateral : Token.t) (loaded : option string)
      (resolution : option Date) : MarketData.t :=
    MarketData.mk (Arbitrator.mk "0xkleros") "Sports" collateral 1000 loaded
      [mkOutcome "yes" (1 # 2); mkOutcome "no" (1 # 2)] "Will it rain?" resolution (2 # 100).

Definition createParams (collateral : Token.t) (loaded : option string)
      (resolution : option Date) (exists_ : bool) : CPKCreateMarketParams.t :=
    CPKCreateMarketParams.mk (marketData collateral loaded resolution)
      (conditionalTokens exists_) realitio factory.

Definition buyParams : CPKBuyOutcomesParams.t :=
    CPKBuyOutcomesParams.mk 100 1 marketMaker.

Definition removeParams : CPKRemoveFundingParams.t :=
    CPKRemoveFundingParams.mk 70 "0xdai" "0xcondition" (conditionalTokens true) 5
      marketMaker 2 40.

Definition redeemParams (resolved : bool) (earned : option BigNumber) : CPKRedeemParams.t :=
    CPKRedeemParams.mk resolved (Question.mk "0xquestion" 2 "raw") 2 earned dai
      (OracleService.mk "0xoracle") marketMaker (conditionalTokens true).

  (** A conditional-tokens contract holding one prepared condition that
      nobody has reported on: its payout denominator and numerators are
      still zero. *)
Definition pendingChain : ConditionalTokenService.Provider :=
    ConditionalTokenService.mkProvider (fun _ _ => Ok 0) (fun _ _ => Ok "0xhash").

  (** The same contract after a report that pays everything to outcome 0. *)
Definition reportedChain : ConditionalTokenService.Provider :=
    ConditionalTokenService.mkProvider (fun _ _ => Ok 1) (fun _ _ => Ok "0xhash").

End Sample.

(** ** Further vocabulary on traces and batches *)

(** The messages handed to [logger.error], with the [err.message] of each. *)
Fixpoint error_logs (t : trace) : list (string * string) :=
match t with
| [] => []
| EvLogError text msg :: t' => (text, msg) :: error_logs t'
| _ :: t' => error_logs t'
end.

(** What happened after the first call of [execTransactions]. *)
Fixpoint after_submit (t : trace) : trace :=
match t with
| [] => []
| EvSubmit _ _ _ :: t' => t'
| _ :: t' => after_submit t'
end.

(** The native value the calls of a batch attach, in total. *)
Fixpoint batch_value (txs : list Transaction) : Z :=
match txs with
| [] => 0
| tx :: txs' => match value tx with Some v => v | None => 0 end + batch_value txs'
end.

(** The native value sent along with a submission. *)
Definition options_value (o : option TxOptions) : Z :=
match o with
| Some opts => match opt_value opts with Some v => v | None => 0 end
| None => 0
end.



Definition is_set_approval (tx : Transaction) : bool :=
match data tx with Some (encodeSetApprovalForAll _ _) => true | _ => false end.

(** ** The other static methods of [ConditionalTokenService] *)

Module ConditionalTokenStatic.

(** A log entry returned by [provider.getLogs], reduced to the outcome of
    [iface.parseLog(log).values.questionId]. *)
Record Log := mkLog { parsedQuestionId : result string }.

(** [contract.filters.ConditionPreparation(conditionId)] with its
    [fromBlock]. *)
Record Filter := mkFilter {
  filterAddress : string;
  filterConditionId : string;
  fromBlock : string }.

(** The contract methods these static methods invoke (see
    [conditionTokenAbi]). *)
Inductive request : Type :=
| prepareCondition_request (oracle questionId : string) (outcomeSlotCount : Z)
| setApprovalForAll_request (operator : string) (approved : bool)
| isApprovedForAll_request (owner operator : string)
| reportPayouts_request (questionId : string) (payouts : list Z).

(** What a static method did, in order; a flag tells whether the step
    resolved. *)
Inductive step : Type :=
| StepContractAddress (networkId : Z) (contract : string) (ok : bool)
| StepSignerAddress (ok : bool)
| StepSend (address : string) (r : request) (ok : bool)
| StepCall (address : string) (r : request) (ok : bool)
| StepGetLogs (f : Filter) (ok : bool)
| StepWarn (text : string)
| StepLog (text : string).

(** The [provider: any]: its signer, the contracts reached through it and
    its log search. *)
Record Provider := mkProvider {
  signerAddress : result string;
  (** a signed transaction on the contract at an address; its hash *)
  send : string -> request -> result string;
  (** a view call answering a boolean *)
  call : string -> request -> result bool;
  getLogs : Filter -> result (list Log) }.

(** [process.env.NODE_ENV] and [ethers.utils.solidityKeccak256] on
    [address, bytes32, uint256], taken as given. *)
Record Runtime := mkRuntime {
  NODE_ENV : option string;
  solidityKeccak256 : string -> string -> Z -> string }.

Definition S (A : Type) : Type := (list step * result A)%type.

Definition sret {A} (a : A) : S A := ([], Ok a).

Definition sthrow {A} (e : Error) : S A := ([], Throw e).

Definition sbind {A B} (m : S A) (f : A -> S B) : S B :=
match m with
| (t1, Ok a) => let (t2, r) := f a in (t1 ++ t2, r)
| (t1, Throw e) => (t1, Throw e)
end.

Declare Scope static_scope.
Notation "x <- m ;; k" := (sbind m (fun x => k))
  (at level 61, m at next level, right associativity) : static_scope.
Notation "m ;; k" := (sbind m (fun _ => k))
  (at level 61, right associativity) : static_scope.
Local Open Scope static_scope.

Definition did (s : step) : S unit := ([s], Ok tt).

Section Static.
Variable env : Env.
Variable runtime : Runtime.

Definition contractAddress (networkId : Z) (contract : string) : S string :=
let r := getContractAddress env networkId contract in
([StepContractAddress networkId contract (is_ok r)], r).

Definition getAddress (provider : Provider) : S string :=
let r := signerAddress provider in ([StepSignerAddress (is_ok r)], r).

Definition sendTransaction (provider : Provider) (address : string) (r : request) : S string :=
let answer := send provider address r in ([StepSend address r (is_ok answer)], answer).

(** [outcomeSlotCount = 2]: the default applies when the argument is left
    out ([None]). *)
Definition prepareCondition (questionId : string) (provider : Provider) (networkId : Z)
    (outcomeSlotCount : option Z) : S string :=
  let outcomeSlotCount := match outcomeSlotCount with Some n => n | None => 2 end in
  conditionalTokensAddress <- contractAddress networkId "conditionalTokens" ;;
  oracleAddress <-
    (match NODE_ENV runtime with
     | Some mode =>
         if String.eqb mode "development"
         then getAddress provider
         else contractAddress networkId "realitioArbitrator"
     | None => contractAddress networkId "realitioArbitrator"
     end) ;;
  transactionObject <-
    sendTransaction provider conditionalTokensAddress
      (prepareCondition_request oracleAddress questionId outcomeSlotCount) ;;
  did (StepLog "Prepare condition transaction hash") ;;
  let conditionId := solidityKeccak256 runtime oracleAddress questionId outcomeSlotCount in
  sret conditionId.

Definition getQuestionId (conditionId : string) (provider : Provider) (networkId : Z)
    : S string :=
  conditionalTokensAddress <- contractAddress networkId "conditionalTokens" ;;
  let filter := mkFilter conditionalTokensAddress conditionId "0x1" in
  logs <- (let r := getLogs provider filter in ([StepGetLogs filter (is_ok r)], r)) ;;
  match logs with
  | [] =>
      sthrow (mkError
        (String.append "No ConditionPreparation event found for conditionId '"
           (String.append conditionId "'")))
  | first :: rest =>
      (if Nat.ltb 1 (List.length logs)
       then did (StepWarn
              (String.append
                 "There should be only one ConditionPreparation event for conditionId '"
                 (String.append conditionId "'")))
       else sret tt) ;;
      (([], parsedQuestionId first) : S string)
  end.

Definition setApprovalForAll (marketMakerAddress : string) (provider : Provider)
    (networkId : Z) : S string :=
  conditionalTokensAddress <- contractAddress networkId "conditionalTokens" ;;
  sendTransaction provider conditionalTokensAddress
    (setApprovalForAll_request marketMakerAddress true).

Definition isApprovedForAll (marketMakerAddress : string) (provider : Provider)
    (networkId : Z) : S bool :=
  signerAddress <- getAddress provider ;;
  conditionalTokensAddress <- contractAddress networkId "conditionalTokens" ;;
  let r := isApprovedForAll_request signerAddress marketMakerAddress in
  let answer := call provider conditionalTokensAddress r in
  (([StepCall conditionalTokensAddress r (is_ok answer)], answer) : S bool).

Definition reportPayouts (questionId : string) (networkId : Z) (provider : Provider)
    : S string :=
  conditionalTokensAddress <- contractAddress networkId "conditionalTokens" ;;
  sendTransaction provider conditionalTokensAddress
    (reportPayouts_request questionId [1; 0]).

End Static.

(** The transactions a static method sent, in order. *)
Fixpoint sent (t : list step) : list (string * request) :=
match t with
| [] => []
| StepSend address r _ :: t' => (address, r) :: sent t'
| _ :: t' => sent t'
end.

Definition asked_signer (s : step) : bool :=
match s with StepSignerAddress _ => true | _ => false end.

Definition warned (s : step) : bool :=
match s with StepWarn _ => true | _ => false end.

End ConditionalTokenStatic.

(** ** [common/constants.ts]: the lists read from the environment *)

Module Constants.

(** [String.prototype.split(',')] *)
Fixpoint split_comma (s : string) : list string :=
match s with
| EmptyString => [EmptyString]
| String c s' =>
    if Ascii.eqb c ","
    then EmptyString :: split_comma s'
    else match split_comma s' with
         | field :: fields => String c field :: fields
         | [] => [String c EmptyString]
         end
end.

(** [process.env.NAME || ''] *)
Definition or_empty (v : option string) : string :=
match v with
| Some s => s
| None => EmptyString
end.

Definition nonempty (x : string) : bool := negb (Nat.eqb (String.length x) 0).



(** [REACT_APP_BLACKLISTED_COUNTRIES]; [Boolean] of a string is whether it
    is non-empty. *)
Definition BLACKLISTED_COUNTRIES (v : option string) : list string :=
filter nonempty (split_comma (or_empty v)).

End Constants.

Module SampleStatic.

Definition runtime (mode : option string) : ConditionalTokenStatic.Runtime :=
ConditionalTokenStatic.mkRuntime mode
  (fun oracle questionId _ => String.append oracle questionId).

Definition provider (logs : list ConditionalTokenStatic.Log)
    : ConditionalTokenStatic.Provider :=
ConditionalTokenStatic.mkProvider (Ok "0xsigner") (fun _ _ => Ok "0xhash")
  (fun _ _ => Ok true) (fun _ => Ok logs).

End SampleStatic.

(** * Properties *)

Import CPKService.

(** Unfolds a workflow down to the answers of its collaborators. *)
Ltac unfold_workflow :=
  unfold run, buyOutcomes, createMarket, sellOutcomes, addFunding, removeFunding,
    redeemPositions, proxyIsUpToDate, upgradeProxyImplementation,
    ERC20Service.hasEnoughAllowance, getAddress, getNetwork, execTransactions,
    waitForTransaction, log_and_rethrow, log, emit, ask, trace_of, result_of in *.

(** Splits on the answer of the next collaborator the goal waits for. *)
Ltac next_answer :=
  match goal with
  | |- context [match ?r with Ok _ => _ | Throw _ => _ end] =>
      lazymatch r with
      | Ok _ => fail
      | Throw _ => fail
      | _ => destruct r eqn:?
      end
  | |- context [match ?o with Some _ => _ | None => _ end] =>
      lazymatch o with
      | Some _ => fail
      | None => fail
      | _ => destruct o eqn:?
      end
  | |- context [if negb ?b then _ else _] =>
      lazymatch b with
      | true => fail
      | false => fail
      | _ => destruct b eqn:?
      end
  | |- context [if ?b then _ else _] =>
      lazymatch b with
      | true => fail
      | false => fail
      | _ => destruct b eqn:?
      end
  end.

Ltac run_all := unfold_workflow; cbn; repeat (next_answer; cbn).

(** ** Case-insensitive comparison *)

Lemma lower_ascii_caseless_codes :
  forallb (fun n => forallb (fun m =>
    Bool.eqb (Ascii.eqb (lower_ascii (ascii_of_nat n)) (lower_ascii (ascii_of_nat m)))
             (caseless_ascii_eqb (ascii_of_nat n) (ascii_of_nat m)))
    (seq 0 256)) (seq 0 256) = true.
Proof. vm_compute. reflexivity. Qed.

Lemma lower_ascii_caseless (a b : ascii) :
  Ascii.eqb (lower_ascii a) (lower_ascii b) = caseless_ascii_eqb a b.
Proof.
  assert (Ha : In (nat_of_ascii a) (seq 0 256))
    by (apply in_seq; pose proof (nat_ascii_bounded a); lia).
  assert (Hb : In (nat_of_ascii b) (seq 0 256))
    by (apply in_seq; pose proof (nat_ascii_bounded b); lia).
  pose proof lower_ascii_caseless_codes as H.
  rewrite forallb_forall in H. specialize (H _ Ha).
  rewrite forallb_forall in H. specialize (H _ Hb).
  rewrite !ascii_nat_embedding in H.
  apply Bool.eqb_prop, H.
Qed.

Lemma toLowerCase_caseless (s1 s2 : string) :
  String.eqb (toLowerCase s1) (toLowerCase s2) = caseless_eqb s1 s2.
Proof.
  revert s2. induction s1 as [|a s1 IH]; intros [|b s2]; cbn; try reflexivity.
  rewrite lower_ascii_caseless, IH.
  destruct (caseless_ascii_eqb a b); reflexivity.
Qed.

(** C7. [proxyIsUpToDate]: when the deployment status reads [deployed], and
    the implementation address reads [implementation] in case the proxy is
    deployed, the answer is [true] exactly when the proxy is deployed and
    the implementation matches the target case-insensitively; for an
    undeployed proxy it is [false] and the implementation is not read. *)
Theorem proxyIsUpToDate_iff_deployed_and_match (env : Env) (self : t)
    (deployed : bool) (implementation : string) :
  CPK.isProxyDeployed (cpk self) = Ok deployed ->
  (deployed = true -> Proxy.masterCopy (proxy self) = Ok implementation) ->
  result_of (proxyIsUpToDate env self)
    = Ok (deployed && caseless_eqb implementation (targetGnosisSafeImplementation env))%bool
  /\ (deployed = false -> queries (trace_of (proxyIsUpToDate env self)) = [QIsProxyDeployed]).
Proof.
  intros Hd Hm. unfold_workflow. rewrite Hd. cbn.
  destruct deployed; cbn.
  - rewrite (Hm eq_refl). cbn. rewrite toLowerCase_caseless.
    destruct (caseless_eqb _ _); split; (reflexivity || discriminate).
  - split; reflexivity.
Qed.

Lemma proxyIsUpToDate_witness :
  result_of (proxyIsUpToDate Sample.env (Sample.self 0)) = Ok true
  /\ result_of (proxyIsUpToDate Sample.env
       (CPKService.mk (Sample.cpk true) (Sample.provider 0) (Proxy.mk (Ok "0xother"))))
     = Ok false.
Proof.
  split.
  - apply (proxyIsUpToDate_iff_deployed_and_match Sample.env (Sample.self 0)
             (deployed := true)
             (implementation := "0xB6029ea3b2C51d09A50b53ca8012fEeb05BdA35a"));
      reflexivity.
  - apply (proxyIsUpToDate_iff_deployed_and_match Sample.env
             (CPKService.mk (Sample.cpk true) (Sample.provider 0) (Proxy.mk (Ok "0xother")))
             (deployed := true) (implementation := "0xother"));
      reflexivity.
Defined.

(** ** The static conditional-token service *)

(** C10. The static [redeemPositions] sends one transaction whenever the
    address of the conditional-tokens contract is known, and none otherwise;
    the call it sends is [redeemPositions] with the zero hash as parent
    collection and the index sets [[1; 2]], whatever the collateral, the
    condition, the network and the provider. *)
Theorem static_redeemPositions_binary_index_sets (env : Env)
    (collateralToken conditionId : string) (networkId : Z)
    (provider : ConditionalTokenService.Provider) :
  let run := ConditionalTokenService.redeemPositions env collateralToken conditionId
               networkId provider in
  (forall address, getContractAddress env networkId "conditionalTokens" = Ok address ->
     let c := call_redeemPositions collateralToken HashZero conditionId [1; 2] in
     trace_of run =
       [ EvQuery (QGetContractAddress networkId "conditionalTokens") true;
         EvSend address c (is_ok (ConditionalTokenService.send provider address c)) ])
  /\ (forall address c ok, In (EvSend address c ok) (trace_of run) ->
        c = call_redeemPositions collateralToken HashZero conditionId [1; 2]).
Proof.
  cbn. unfold ConditionalTokenService.redeemPositions, ask, trace_of. split.
  - intros address H. rewrite H. reflexivity.
  - intros address c ok. destruct (getContractAddress env networkId "conditionalTokens"); cbn.
    + intros [H | [H | []]]; [discriminate | now inversion H].
    + intros [H | []]. discriminate.
Qed.

Lemma static_redeemPositions_witness :
  trace_of (ConditionalTokenService.redeemPositions Sample.env "0xdai" "0xcondition" 1
              Sample.pendingChain)
  = [ EvQuery (QGetContractAddress 1 "conditionalTokens") true;
      EvSend "0xconditionalTokens"
        (call_redeemPositions "0xdai" HashZero "0xcondition" [1; 2]) true ].
Proof.
  exact (proj1 (static_redeemPositions_binary_index_sets Sample.env "0xdai" "0xcondition" 1
                  Sample.pendingChain) "0xconditionalTokens" eq_refl).
Defined.

(** C9, as the spec states it, fails: on a chain where a prepared condition
    has not been reported on, [isConditionResolved] answers [false] and
    [getWinnerOutcome] answers the outcome [No]. *)
Lemma getWinnerOutcome_pending_reports_No :
  result_of (ConditionalTokenService.isConditionResolved Sample.env "0xcondition" 1
               Sample.pendingChain) = Ok false
  /\ result_of (ConditionalTokenService.getWinnerOutcome Sample.env "0xcondition" 1
                  Sample.pendingChain) = Ok No.
Proof. split; reflexivity. Qed.

(** C9, amended. [getWinnerOutcome] has no unresolved answer.  When the
    payout numerator of outcome slot 0 reads [yesNumerator], the answer is
    [No] if it is zero and [Yes] otherwise; so a condition that is not
    resolved, whose numerators are all zero, is reported as [No]. *)
Theorem getWinnerOutcome_by_first_numerator (env : Env) (conditionId : string)
    (networkId : Z) (provider : ConditionalTokenService.Provider)
    (address : string) (yesNumerator : BigNumber) :
  getContractAddress env networkId "conditionalTokens" = Ok address ->
  ConditionalTokenService.call provider address (call_payoutNumerators conditionId 0)
    = Ok yesNumerator ->
  result_of (ConditionalTokenService.getWinnerOutcome env conditionId networkId provider)
    = Ok (if Z.eqb yesNumerator 0 then No else Yes).
Proof.
  intros Ha Hn. unfold ConditionalTokenService.getWinnerOutcome, ask, result_of.
  rewrite Ha. cbn. rewrite Hn. reflexivity.
Qed.

Lemma getWinnerOutcome_witness :
  result_of (ConditionalTokenService.getWinnerOutcome Sample.env "0xcondition" 1
               Sample.reportedChain) = Ok Yes.
Proof.
  apply (getWinnerOutcome_by_first_numerator Sample.env "0xcondition" 1 Sample.reportedChain
           (address := "0xconditionalTokens") (yesNumerator := 1)); reflexivity.
Defined.

(** ** Create market: the precondition *)

(** C6. Without a resolution time [createMarket] throws
    [Resolution time was not specified]: the error is logged and thrown
    again, and nothing else happens; no collaborator is queried and no batch
    is submitted. *)
Theorem createMarket_requires_resolution (env : Env) (self : t)
    (p : CPKCreateMarketParams.t) :
  MarketData.resolution (CPKCreateMarketParams.marketData p) = None ->
  createMarket env self p =
    ( [ EvLogError "There was an error creating the market maker"
          "Resolution time was not specified" ],
      Throw (mkError "Resolution time was not specified") )
  /\ queries (trace_of (createMarket env self p)) = []
  /\ submissions (trace_of (createMarket env self p)) = [].
Proof.
  intros H. unfold createMarket. rewrite H. repeat split.
Qed.

Lemma createMarket_requires_resolution_witness :
  queries (trace_of (createMarket Sample.env (Sample.self 0)
                       (Sample.createParams Sample.dai None None false))) = []
  /\ submissions (trace_of (createMarket Sample.env (Sample.self 0)
                       (Sample.createParams Sample.dai None None false))) = [].
Proof.
  exact (proj2 (createMarket_requires_resolution Sample.env (Sample.self 0)
                  (Sample.createParams Sample.dai None None false) eq_refl)).
Defined.

(** ** Buy, remove funding, redeem: the shape of the batch *)

Section BuyOutcomes.
Variable self : t.
Variable p : CPKBuyOutcomesParams.t.

Let amount := CPKBuyOutcomesParams.amount p.
Let outcomeIndex := CPKBuyOutcomesParams.outcomeIndex p.
Let marketMaker := CPKBuyOutcomesParams.marketMaker p.
Let proxyAddress := CPK.address (cpk self).
Let marketAddress := MarketMakerService.address marketMaker.

Lemma buyOutcomes_submissions (account collateralAddress : string)
    (outcomeTokensToBuy granted : BigNumber) :
  Web3Provider.getAddress (provider self) = Ok account ->
  MarketMakerService.getCollateralToken marketMaker = Ok collateralAddress ->
  MarketMakerService.calcBuyAmount marketMaker amount outcomeIndex = Ok outcomeTokensToBuy ->
  Web3Provider.allowance (provider self) collateralAddress proxyAddress marketAddress
    = Ok granted ->
  let approve := tx_data collateralAddress (encodeApproveUnlimited marketAddress) in
  let transfer := tx_data collateralAddress (encodeTransferFrom account proxyAddress amount) in
  let buy := tx_data marketAddress (encodeBuy amount outcomeIndex outcomeTokensToBuy) in
  submissions (trace_of (buyOutcomes self p)) =
    [ (if Z.leb amount granted then [transfer; buy] else [approve; transfer; buy], None) ].
Proof.
  intros Hacc Hcol Hbuy Hall approve transfer buy.
  subst amount outcomeIndex marketMaker proxyAddress marketAddress approve transfer buy.
  unfold_workflow. rewrite Hacc. cbn. rewrite Hcol. cbn. rewrite Hbuy. cbn. rewrite Hall. cbn.
  repeat (next_answer; cbn); reflexivity.
Qed.

(** C1. Buy workflow: once the signer address, the collateral token, the
    quote and the allowance of the proxy to the market maker are read, one
    batch is submitted.  With an allowance of at least the requested amount
    it is exactly [transfer from user to proxy; buy]; with a smaller
    allowance it is exactly [approve unlimited; transfer; buy]. *)
Theorem buyOutcomes_batch_shape (account collateralAddress : string)
    (outcomeTokensToBuy granted : BigNumber) :
  Web3Provider.getAddress (provider self) = Ok account ->
  MarketMakerService.getCollateralToken marketMaker = Ok collateralAddress ->
  MarketMakerService.calcBuyAmount marketMaker amount outcomeIndex = Ok outcomeTokensToBuy ->
  Web3Provider.allowance (provider self) collateralAddress proxyAddress marketAddress
    = Ok granted ->
  let approve := tx_data collateralAddress (encodeApproveUnlimited marketAddress) in
  let transfer := tx_data collateralAddress (encodeTransferFrom account proxyAddress amount) in
  let buy := tx_data marketAddress (encodeBuy amount outcomeIndex outcomeTokensToBuy) in
  (amount <= granted ->
     submissions (trace_of (buyOutcomes self p)) = [([transfer; buy], None)])
  /\ (granted < amount ->
     submissions (trace_of (buyOutcomes self p)) = [([approve; transfer; buy], None)]).
Proof.
  intros Hacc Hcol Hbuy Hall approve transfer buy.
  pose proof (buyOutcomes_submissions Hacc Hcol Hbuy Hall) as H. cbn zeta in H.
  fold approve transfer buy in H. rewrite H.
  split; intros Hcmp.
  - apply Z.leb_le in Hcmp. rewrite Hcmp. reflexivity.
  - apply Z.leb_gt in Hcmp. rewrite Hcmp. reflexivity.
Qed.

End BuyOutcomes.

Lemma buyOutcomes_batch_shape_witness :
  submissions (trace_of (buyOutcomes (Sample.self 100) Sample.buyParams))
    = [ ( [ tx_data "0xdai" (encodeTransferFrom "0xuser" "0xcpk" 100);
            tx_data "0xmm" (encodeBuy 100 1 95) ], None ) ]
  /\ submissions (trace_of (buyOutcomes (Sample.self 99) Sample.buyParams))
    = [ ( [ tx_data "0xdai" (encodeApproveUnlimited "0xmm");
            tx_data "0xdai" (encodeTransferFrom "0xuser" "0xcpk" 100);
            tx_data "0xmm" (encodeBuy 100 1 95) ], None ) ].
Proof.
  split.
  - apply (proj1 (buyOutcomes_batch_shape (Sample.self 100) Sample.buyParams
                    (account := "0xuser") (collateralAddress := "0xdai")
                    (outcomeTokensToBuy := 95) (granted := 100)
                    eq_refl eq_refl eq_refl eq_refl)).
    cbn. lia.
  - apply (proj2 (buyOutcomes_batch_shape (Sample.self 99) Sample.buyParams
                    (account := "0xuser") (collateralAddress := "0xdai")
                    (outcomeTokensToBuy := 95) (granted := 99)
                    eq_refl eq_refl eq_refl eq_refl)).
    cbn. lia.
Defined.

(** C5. Remove funding: once the signer address is read, one batch is
    submitted, and it is exactly the three calls [burn market shares; merge
    positions; transfer collateral], the transfer paying the integer sum
    [amountToMerge + earnings] to the user. *)
Theorem removeFunding_batch_shape (self : t) (p : CPKRemoveFundingParams.t)
    (account : string) :
  Web3Provider.getAddress (provider self) = Ok account ->
  let burn :=
    tx_data (MarketMakerService.address (CPKRemoveFundingParams.marketMaker p))
      (encodeRemoveFunding (CPKRemoveFundingParams.sharesToBurn p)) in
  let merge :=
    tx_data (ConditionalTokenService.address (CPKRemoveFundingParams.conditionalTokens p))
      (encodeMergePositions (CPKRemoveFundingParams.collateralAddress p)
         (CPKRemoveFundingParams.conditionId p) (CPKRemoveFundingParams.outcomesCount p)
         (CPKRemoveFundingParams.amountToMerge p)) in
  let transfer :=
    tx_data (CPKRemoveFundingParams.collateralAddress p)
      (encodeTransfer account
         (CPKRemoveFundingParams.amountToMerge p + CPKRemoveFundingParams.earnings p)) in
  submissions (trace_of (removeFunding self p)) = [([burn; merge; transfer], None)].
Proof.
  intros Hacc. unfold_workflow. rewrite Hacc. cbn.
  repeat (next_answer; cbn); reflexivity.
Qed.

Lemma removeFunding_batch_shape_witness :
  submissions (trace_of (removeFunding (Sample.self 0) Sample.removeParams))
    = [ ( [ tx_data "0xmm" (encodeRemoveFunding 40);
            tx_data "0xct" (encodeMergePositions "0xdai" "0xcondition" 2 70);
            tx_data "0xdai" (encodeTransfer "0xuser" 75) ], None ) ].
Proof.
  exact (removeFunding_batch_shape (Sample.self 0) Sample.removeParams
           (account := "0xuser") eq_refl).
Defined.

(** C2, as the spec states it, fails: with the condition resolved and an
    earned collateral that is the [BigNumber] zero, the batch still ends with
    a transfer to the user, of amount zero. *)
Lemma redeemPositions_zero_earned_transfers :
  submissions (trace_of (redeemPositions (Sample.self 0) (Sample.redeemParams true (Some 0))))
    = [ ( [ tx_data "0xct" (encodeRedeemPositions "0xdai" "0xcondition" 2);
            tx_data "0xdai" (encodeTransfer "0xuser" 0) ], None ) ].
Proof. reflexivity. Qed.

(** C2, amended. Redeem: once the signer address and the condition of the
    market are read, one batch is submitted.  It holds the resolve-condition
    call, first, exactly when [isConditionResolved] is false; then the
    redeem-positions call; then the transfer to the user exactly when an
    earned collateral is given, of that amount, be it zero; no transfer when
    none is given.  Each of the two optional calls depends on its own input
    only. *)
Theorem redeemPositions_batch_shape (self : t) (p : CPKRedeemParams.t)
    (account conditionId : string) :
  Web3Provider.getAddress (provider self) = Ok account ->
  MarketMakerService.getConditionId (CPKRedeemParams.marketMaker p) = Ok conditionId ->
  let question := CPKRedeemParams.question p in
  let collateral := Token.address (CPKRedeemParams.collateralToken p) in
  let resolve :=
    tx_data (OracleService.address (CPKRedeemParams.oracle p))
      (encodeResolveCondition (Question.id question) (Question.templateId question)
         (Question.raw question) (CPKRedeemParams.numOutcomes p)) in
  let redeem :=
    tx_data (ConditionalTokenService.address (CPKRedeemParams.conditionalTokens p))
      (encodeRedeemPositions collateral conditionId (CPKRedeemParams.numOutcomes p)) in
  let resolving := if CPKRedeemParams.isConditionResolved p then [] else [resolve] in
  let paying :=
    match CPKRedeemParams.earnedCollateral p with
    | Some earned => [tx_data collateral (encodeTransfer account earned)]
    | None => []
    end in
  submissions (trace_of (redeemPositions self p)) = [(resolving ++ [redeem] ++ paying, None)]
  /\ (CPKRedeemParams.isConditionResolved p = true ->
        existsb is_resolve_condition (resolving ++ [redeem] ++ paying) = false)
  /\ (CPKRedeemParams.earnedCollateral p = None ->
        existsb is_transfer (resolving ++ [redeem] ++ paying) = false).
Proof.
  intros Hacc Hcid. cbn zeta. split; [| split].
  - unfold_workflow. rewrite Hacc. cbn. rewrite Hcid.
    destruct (CPKRedeemParams.isConditionResolved p), (CPKRedeemParams.earnedCollateral p);
      cbn; repeat (next_answer; cbn); reflexivity.
  - intros ->. destruct (CPKRedeemParams.earnedCollateral p); reflexivity.
  - intros ->. destruct (CPKRedeemParams.isConditionResolved p); reflexivity.
Qed.

Lemma redeemPositions_batch_shape_witness :
  submissions (trace_of (redeemPositions (Sample.self 0) (Sample.redeemParams true None)))
    = [ ( [ tx_data "0xct" (encodeRedeemPositions "0xdai" "0xcondition" 2) ], None ) ].
Proof.
  exact (proj1 (redeemPositions_batch_shape (Sample.self 0) (Sample.redeemParams true None)
                  (account := "0xuser") (conditionId := "0xcondition") eq_refl eq_refl)).
Defined.

(** ** Create market: the steps of the batch *)

(** Closes a goal about a batch that was never submitted, and names the
    batch that was. *)
Ltac submitted :=
  cbn; intros Hin;
  repeat match goal with
  | H : False |- _ => destruct H
  | H : _ \/ _ |- _ => destruct H
  | H : (_, _) = (_, _) |- _ => inversion H; subst; clear H
  end.

(** Runs [createMarket] on every combination of inputs and answers. *)
Ltac create_market_cases p :=
  unfold_workflow;
  destruct (MarketData.resolution (CPKCreateMarketParams.marketData p))
    as [resolution|] eqn:Hresolution;
  [ destruct (MarketData.loadedQuestionId (CPKCreateMarketParams.marketData p))
      as [q|] eqn:Hloaded; cbn;
    [ destruct (String.eqb q "") eqn:Hempty; cbn | ]
  | cbn ];
  repeat (next_answer; cbn).




(** C4, as the spec states it, fails: with a question ID supplied, its
    condition existing and the native asset as collateral, the batch is
    [wrap; approve; create market maker]; its first call is none of approve,
    transfer funding and create market maker. *)
Lemma createMarket_loaded_native_has_wrap :
  let wrap := tx_value "0xweth" 1000 in
  let approve := tx_data "0xweth" (encodeApproveUnlimited "0xfactory") in
  let create :=
    tx_data "0xfactory"
      (encodeCreateMarketMaker 424242 "0xct" "0xweth" "0xq0xoracle" (2 # 100) 1000 [1; 1]) in
  submissions (trace_of (createMarket Sample.env (Sample.self 0)
                           (Sample.createParams Sample.eth (Some "0xq") (Some 5) true)))
    = [ ([wrap; approve; create], Some (mkTxOptions (Some 1000) None)) ]
  /\ forallb (fun tx => is_approve tx || is_transfer_from tx || is_create_market_maker tx)%bool
       [wrap; approve; create] = false.
Proof. split; reflexivity. Qed.

(** C4, amended. Create market with a resolution time.
    With a non-empty question ID supplied and its condition existing, once
    the queries are answered one batch is submitted and it is exactly: the
    wrap call if the collateral is the native asset; the approve call; the
    transfer of the funding if the collateral is not the native asset; the
    create-market-maker call.  It holds no ask-question and no
    prepare-condition call.
    With no question ID supplied (none, or the empty string) the existence
    of the condition is never queried and every batch the workflow submits
    holds the prepare-condition call. *)
Theorem createMarket_condition_steps (env : Env) (self : t) (p : CPKCreateMarketParams.t) :
  let marketData := CPKCreateMarketParams.marketData p in
  let conditionalTokens := CPKCreateMarketParams.conditionalTokens p in
  let factory := CPKCreateMarketParams.marketMakerFactory p in
  let funding := MarketData.funding marketData in
  let proxyAddress := CPK.address (cpk self) in
  let native :=
    String.eqb (Token.address (MarketData.collateral marketData)) (pseudoEthAddress env) in
  let outcomesLength := Z.of_nat (List.length (MarketData.outcomes marketData)) in
  (forall (resolution : Date) (questionId account oracleAddress predicted : string)
          (networkId : Z) (collateral : Token.t),
     MarketData.resolution marketData = Some resolution ->
     MarketData.loadedQuestionId marketData = Some questionId ->
     questionId <> "" ->
     Web3Provider.getAddress (provider self) = Ok account ->
     Web3Provider.getNetwork (provider self) = Ok networkId ->
     (if native
      then getToken env networkId "weth" = Ok collateral
      else collateral = MarketData.collateral marketData) ->
     getContractAddress env networkId "oracle" = Ok oracleAddress ->
     let conditionId :=
       ConditionalTokenService.getConditionId conditionalTokens questionId oracleAddress
         outcomesLength in
     ConditionalTokenService.doesConditionExist conditionalTokens conditionId = Ok true ->
     MarketMakerFactoryService.predictMarketMakerAddress factory (randomSaltNonce env)
       (ConditionalTokenService.address conditionalTokens) (Token.address collateral)
       conditionId proxyAddress (MarketData.spread marketData) = Ok predicted ->
     let wrapping := if native then [tx_value (Token.address collateral) funding] else [] in
     let approve :=
       tx_data (Token.address collateral)
         (encodeApproveUnlimited (MarketMakerFactoryService.address factory)) in
     let transferring :=
       if native then []
       else [tx_data (Token.address collateral)
               (encodeTransferFrom account proxyAddress funding)] in
     let create :=
       tx_data (MarketMakerFactoryService.address factory)
         (encodeCreateMarketMaker (randomSaltNonce env)
            (ConditionalTokenService.address conditionalTokens) (Token.address collateral)
            conditionId (MarketData.spread marketData) funding
            (calcDistributionHint env (map probability (MarketData.outcomes marketData)))) in
     let batch := wrapping ++ [approve] ++ transferring ++ [create] in
     submissions (trace_of (createMarket env self p))
       = [ (batch, Some (mkTxOptions (if native then Some funding else None) None)) ]
     /\ existsb is_ask_question batch = false
     /\ existsb is_prepare_condition batch = false)
  /\ (truthy_string (MarketData.loadedQuestionId marketData) = false ->
      (forall conditionId,
         ~ In (QDoesConditionExist conditionId) (queries (trace_of (createMarket env self p))))
      /\ (forall batch txOptions,
            In (batch, txOptions) (submissions (trace_of (createMarket env self p))) ->
            existsb is_prepare_condition batch = true)).
Proof.
  cbn zeta. split.
  - intros resolution questionId account oracleAddress predicted networkId collateral
      Hres Hloaded Hq Hacc Hnet Hcol Horacle Hexists Hpred.
    apply String.eqb_neq in Hq.
    split; [| destruct (String.eqb _ (pseudoEthAddress env)); split; reflexivity ].
    unfold_workflow. unfold truthy_string. rewrite Hres, Hloaded, Hq, Hacc. cbn.
    rewrite Hnet. cbn.
    destruct (String.eqb _ (pseudoEthAddress env)); [ rewrite Hcol | subst collateral ];
      cbn; rewrite Horacle; cbn; rewrite Hexists; cbn; rewrite Hpred; cbn;
      repeat (next_answer; cbn); reflexivity.
  - create_market_cases p; intros Htruthy; try discriminate Htruthy; split.
    all: try (intros conditionId Hin; cbn in Hin;
              repeat match goal with
                     | H : _ \/ _ |- _ => destruct H as [H | H]; [ discriminate H | ]
                     end;
              exact Hin).
    all: try (intros batch txOptions; submitted; reflexivity).
Qed.

Lemma createMarket_condition_steps_witness :
  submissions (trace_of (createMarket Sample.env (Sample.self 0)
                           (Sample.createParams Sample.dai (Some "0xq") (Some 5) true)))
    = [ ( [ tx_data "0xdai" (encodeApproveUnlimited "0xfactory");
            tx_data "0xdai" (encodeTransferFrom "0xuser" "0xcpk" 1000);
            tx_data "0xfactory"
              (encodeCreateMarketMaker 424242 "0xct" "0xdai" "0xq0xoracle" (2 # 100)
                 1000 [1; 1]) ],
          Some (mkTxOptions None None) ) ]
  /\ existsb is_prepare_condition
       [ tx_data "0xrealitio"
           (encodeAskQuestion "Will it rain?"
              (MarketData.outcomes (Sample.marketData Sample.dai None (Some 5)))
              "Sports" "0xkleros" 5 1);
         tx_data "0xct" (encodePrepareCondition "0xquestion" "0xoracle" 2);
         tx_data "0xdai" (encodeApproveUnlimited "0xfactory");
         tx_data "0xdai" (encodeTransferFrom "0xuser" "0xcpk" 1000);
         tx_data "0xfactory"
           (encodeCreateMarketMaker 424242 "0xct" "0xdai" "0xquestion0xoracle" (2 # 100)
              1000 [1; 1]) ] = true.
Proof.
  split.
  - refine (proj1 (proj1 (createMarket_condition_steps Sample.env (Sample.self 0)
                            (Sample.createParams Sample.dai (Some "0xq") (Some 5) true))
                     5 "0xq" "0xuser" "0xoracle" "0xmarket" 1 Sample.dai
                     eq_refl eq_refl _ eq_refl eq_refl eq_refl eq_refl eq_refl eq_refl)).
    discriminate.
  - refine (proj2 (proj2 (createMarket_condition_steps Sample.env (Sample.self 0)
                            (Sample.createParams Sample.dai None (Some 5) true))
                     eq_refl) _ (Some (mkTxOptions None None)) _).
    left. reflexivity.
Defined.

(** ** One submission per intent *)

(** One flag of the trace was assumed both set and unset. *)
Ltac flag_clash :=
  match goal with
  | H1 : ?x = true, H2 : ?y = false |- _ =>
      exfalso; apply Bool.diff_true_false; exact (eq_trans (eq_sym H1) H2)
  end.

(** C8. Each of the six workflows hands at most one batch to the proxy kit.
    A run that succeeds has handed over exactly one.  A run in which a query
    rejected has handed over none; so has every failed run in which neither
    the submission nor the wait for its inclusion is what rejected, such as a
    missing precondition. *)
Theorem one_submission_per_intent (env : Env) (self : t) (i : intent) :
  let m := run env self i in
  (is_ok (result_of m) = true -> List.length (submissions (trace_of m)) = 1%nat)
  /\ (query_failed (trace_of m) = true -> submissions (trace_of m) = [])
  /\ (is_ok (result_of m) = false -> submit_or_wait_failed (trace_of m) = false ->
      submissions (trace_of m) = [])
  /\ (List.length (submissions (trace_of m)) <= 1)%nat.
Proof.
  cbn zeta.
  destruct i as [p | p | p | p | p | p];
    [ run_all | run_all | cbn [run]; create_market_cases p | run_all | run_all | run_all ].
  all: repeat split; intros; try discriminate; try flag_clash; cbn; lia.
Qed.

Lemma one_submission_per_intent_witness :
  List.length (submissions (trace_of (run Sample.env (Sample.self 0) (Buy Sample.buyParams))))
    = 1%nat
  /\ submissions (trace_of (run Sample.env Sample.offline (Buy Sample.buyParams))) = [].
Proof.
  split.
  - exact (proj1 (one_submission_per_intent Sample.env (Sample.self 0)
                    (Buy Sample.buyParams)) eq_refl).
  - exact (proj1 (proj2 (one_submission_per_intent Sample.env Sample.offline
                           (Buy Sample.buyParams))) eq_refl).
Defined.

(** * Further properties of the workflows *)

(** ** Sell and add funding: the shape of the batch *)

(** X1. Sell workflow: once the signer address, the quote, the collateral
    token and the operator approval of the proxy for the market maker are
    read, one batch is submitted: the set-approval-for-all call exactly when
    the approval is missing, then the sell call, then the transfer of the
    requested amount of collateral to the user. *)
Theorem sellOutcomes_batch_shape (self : t) (p : CPKSellOutcomesParams.t)
    (account collateralAddress : string) (outcomeTokensToSell : BigNumber)
    (approved : bool) :
  let amount := CPKSellOutcomesParams.amount p in
  let outcomeIndex := CPKSellOutcomesParams.outcomeIndex p in
  let marketAddress := MarketMakerService.address (CPKSellOutcomesParams.marketMaker p) in
  let conditionalTokens := CPKSellOutcomesParams.conditionalTokens p in
  Web3Provider.getAddress (provider self) = Ok account ->
  MarketMakerService.calcSellAmount (CPKSellOutcomesParams.marketMaker p) amount outcomeIndex
    = Ok outcomeTokensToSell ->
  MarketMakerService.getCollateralToken (CPKSellOutcomesParams.marketMaker p)
    = Ok collateralAddress ->
  ConditionalTokenService.isApprovedForAll conditionalTokens (CPK.address (cpk self))
    marketAddress = Ok approved ->
  let approving :=
    if approved then []
    else [tx_data (ConditionalTokenService.address conditionalTokens)
            (encodeSetApprovalForAll marketAddress true)] in
  let sell := tx_data marketAddress (encodeSell amount outcomeIndex outcomeTokensToSell) in
  let transfer := tx_data collateralAddress (encodeTransfer account amount) in
  submissions (trace_of (sellOutcomes self p)) = [(approving ++ [sell; transfer], None)].
Proof.
  cbn zeta. intros Hacc Hsell Hcol Happ.
  unfold_workflow. rewrite Hacc. cbn. rewrite Hsell. cbn. rewrite Hcol. cbn.
  rewrite Happ. cbn.
  destruct approved; cbn; repeat (next_answer; cbn); reflexivity.
Qed.

Lemma sellOutcomes_batch_shape_witness :
  submissions (trace_of (sellOutcomes (Sample.self 0)
     (CPKSellOutcomesParams.mk 100 1 Sample.marketMaker (Sample.conditionalTokens true))))
  = [ ( [ tx_data "0xct" (encodeSetApprovalForAll "0xmm" true);
          tx_data "0xmm" (encodeSell 100 1 105);
          tx_data "0xdai" (encodeTransfer "0xuser" 100) ], None ) ].
Proof.
  exact (sellOutcomes_batch_shape (Sample.self 0)
           (CPKSellOutcomesParams.mk 100 1 Sample.marketMaker (Sample.conditionalTokens true))
           (account := "0xuser") (collateralAddress := "0xdai") (outcomeTokensToSell := 105)
           (approved := false) eq_refl eq_refl eq_refl eq_refl).
Defined.

(** X2. Add funding: once the signer address, the network, the wrapped token
    (for native collateral) and the allowance of the proxy to the market
    maker on the effective collateral are read, one batch is submitted.  It
    is: the wrap call carrying the amount, for native collateral; the approve
    call when the allowance is below the amount; the transfer from the user
    to the proxy, for any other collateral; the add-funding call.  The
    amount is sent along as native value exactly for native collateral. *)
Theorem addFunding_batch_shape (env : Env) (self : t) (p : CPKAddFundingParams.t)
    (account collateralAddress : string) (networkId : Z) (granted : BigNumber) :
  let amount := CPKAddFundingParams.amount p in
  let marketAddress := MarketMakerService.address (CPKAddFundingParams.marketMaker p) in
  let proxyAddress := CPK.address (cpk self) in
  let native :=
    String.eqb (Token.address (CPKAddFundingParams.collateral p)) (pseudoEthAddress env) in
  Web3Provider.getAddress (provider self) = Ok account ->
  Web3Provider.getNetwork (provider self) = Ok networkId ->
  (if native
   then exists weth, getToken env networkId "weth" = Ok weth /\
                     collateralAddress = Token.address weth
   else collateralAddress = Token.address (CPKAddFundingParams.collateral p)) ->
  Web3Provider.allowance (provider self) collateralAddress proxyAddress marketAddress
    = Ok granted ->
  let wrapping := if native then [tx_value collateralAddress amount] else [] in
  let approving :=
    if Z.leb amount granted then []
    else [tx_data collateralAddress (encodeApproveUnlimited marketAddress)] in
  let transferring :=
    if native then []
    else [tx_data collateralAddress (encodeTransferFrom account proxyAddress amount)] in
  let funding := tx_data marketAddress (encodeAddFunding amount) in
  submissions (trace_of (addFunding env self p))
    = [ (wrapping ++ approving ++ transferring ++ [funding],
         Some (mkTxOptions (if native then Some amount else None) None)) ].
Proof.
  cbn zeta. intros Hacc Hnet Hcol Hall.
  unfold_workflow. rewrite Hacc. cbn. rewrite Hnet. cbn.
  destruct (String.eqb _ (pseudoEthAddress env)).
  - destruct Hcol as [weth [Hweth ->]]. rewrite Hweth. cbn. rewrite Hall. cbn.
    destruct (Z.leb _ granted); cbn; repeat (next_answer; cbn); reflexivity.
  - subst collateralAddress. cbn. rewrite Hall. cbn.
    destruct (Z.leb _ granted); cbn; repeat (next_answer; cbn); reflexivity.
Qed.

Lemma addFunding_batch_shape_witness :
  submissions (trace_of (addFunding Sample.env (Sample.self 0)
     (CPKAddFundingParams.mk 50 Sample.eth Sample.marketMaker)))
  = [ ( [ tx_value "0xweth" 50;
          tx_data "0xweth" (encodeApproveUnlimited "0xmm");
          tx_data "0xmm" (encodeAddFunding 50) ],
        Some (mkTxOptions (Some 50) None) ) ].
Proof.
  refine (@addFunding_batch_shape Sample.env (Sample.self 0)
            (CPKAddFundingParams.mk 50 Sample.eth Sample.marketMaker)
            "0xuser" "0xweth" 1 0 eq_refl eq_refl _ eq_refl).
  exists Sample.weth. split; reflexivity.
Defined.

(** X3. [upgradeProxyImplementation] asks nothing and hands over one batch
    of a single call, the change of the master copy to the target
    implementation, addressed to the proxy itself and without options.  Its
    result is the answer of the wait for the hash the submission returned,
    or the error of the submission, which alone is logged. *)
Theorem upgradeProxyImplementation_single_call (env : Env) (self : t) :
  let upgrade :=
    [tx_data (CPK.address (cpk self))
       (encodeChangeMasterCopy (targetGnosisSafeImplementation env))] in
  let m := upgradeProxyImplementation env self in
  queries (trace_of m) = []
  /\ submissions (trace_of m) = [(upgrade, None)]
  /\ match CPK.execTransactions (cpk self) upgrade None with
     | Ok hash =>
         result_of m = Web3Provider.waitForTransaction (provider self) hash
         /\ error_logs (trace_of m) = []
     | Throw e =>
         result_of m = Throw e
         /\ error_logs (trace_of m) = [("Error trying to update proxy", message e)]
     end.
Proof.
  cbn zeta. unfold_workflow. cbn.
  destruct (CPK.execTransactions _ _ _); cbn; repeat split; reflexivity.
Qed.

(** ** Properties of all six workflows *)

(** Runs the workflow of an intent on every combination of answers. *)
Ltac intent_cases i :=
  let p := fresh "p" in
  destruct i as [p | p | p | p | p | p];
  [ run_all | run_all | cbn [run]; create_market_cases p | run_all | run_all | run_all ].

(** X4. Whatever the intent and the answers, the native value sent along
    with a submitted batch is the total of the values its calls attach: the
    funding or the amount when native collateral is wrapped, nothing
    otherwise. *)
Theorem submitted_value_is_attached_value (env : Env) (self : t) (i : intent)
    (batch : list Transaction) (txOptions : option TxOptions) :
  In (batch, txOptions) (submissions (trace_of (run env self i))) ->
  options_value txOptions = batch_value batch.
Proof.
  intent_cases i; submitted; cbn; lia.
Qed.

Lemma submitted_value_is_attached_value_witness :
  options_value (Some (mkTxOptions (Some 50) None))
  = batch_value [ tx_value "0xweth" 50;
                  tx_data "0xweth" (encodeApproveUnlimited "0xmm");
                  tx_data "0xmm" (encodeAddFunding 50) ].
Proof.
  refine (submitted_value_is_attached_value Sample.env (Sample.self 0)
            (AddFunding (CPKAddFundingParams.mk 50 Sample.eth Sample.marketMaker)) _ _ _).
  left. reflexivity.
Defined.

(** X5. Whatever the intent and the answers, every query is made before the
    batch is handed over: after the call of [execTransactions] a workflow
    asks its collaborators nothing more and submits nothing more. *)
Theorem queries_precede_submission (env : Env) (self : t) (i : intent) :
  queries (after_submit (trace_of (run env self i))) = []
  /\ submissions (after_submit (trace_of (run env self i))) = [].
Proof.
  intent_cases i; split; reflexivity.
Qed.

(** X6. A workflow that succeeds has submitted one batch, the submission has
    answered a hash, and the wait for the inclusion of that very hash has
    resolved. *)
Theorem success_waited_for_inclusion (env : Env) (self : t) (i : intent) :
  is_ok (result_of (run env self i)) = true ->
  exists batch txOptions hash receipt,
    submissions (trace_of (run env self i)) = [(batch, txOptions)]
    /\ CPK.execTransactions (cpk self) batch txOptions = Ok hash
    /\ Web3Provider.waitForTransaction (provider self) hash = Ok receipt
    /\ In (EvWait hash true) (trace_of (run env self i)).
Proof.
  intent_cases i; intros Hok; try discriminate Hok.
  all: try match goal with
       | H : is_ok ?r = true |- _ => destruct r eqn:?; [ clear H | discriminate H ]
       end.
  all: cbn; do 4 eexists;
       (split; [ reflexivity | split; [ eassumption | split; [ eassumption | ] ] ]).
  all: cbn; repeat (first [ left; reflexivity | right ]).
Qed.

Lemma success_waited_for_inclusion_witness :
  exists batch txOptions hash receipt,
    submissions (trace_of (run Sample.env (Sample.self 0) (Buy Sample.buyParams)))
      = [(batch, txOptions)]
    /\ CPK.execTransactions (cpk (Sample.self 0)) batch txOptions = Ok hash
    /\ Web3Provider.waitForTransaction (provider (Sample.self 0)) hash = Ok receipt
    /\ In (EvWait hash true)
          (trace_of (run Sample.env (Sample.self 0) (Buy Sample.buyParams))).
Proof.
  exact (success_waited_for_inclusion Sample.env (Sample.self 0) (Buy Sample.buyParams)
           eq_refl).
Defined.


(** X8. When the wait for inclusion rejects, [createMarket], which awaits it
    inside its [try], logs the error; the five workflows that return the
    pending wait from inside their [try] log nothing.  Either way the error
    of the wait is what the workflow throws. *)
Theorem rejected_wait_logged_by_createMarket_only (env : Env) (self : t) (i : intent)
    (hash : string) :
  In (EvWait hash false) (trace_of (run env self i)) ->
  result_of (run env self i) = Web3Provider.waitForTransaction (provider self) hash
  /\ List.length (error_logs (trace_of (run env self i)))
     = match i with CreateMarket _ => 1%nat | _ => 0%nat end.
Proof.
  intent_cases i; cbn; intros Hin;
    repeat match goal with
    | H : False |- _ => destruct H
    | H : _ \/ _ |- _ => destruct H as [H | H]; try discriminate H
    end.
  all: match goal with
       | H : EvWait _ _ = EvWait _ _ |- _ => inversion H; subst; clear H
       end.
  all: try match goal with
       | H : is_ok ?r = false |- _ => destruct r eqn:?; [ discriminate H | ]
       end.
  all: split; [ first [ reflexivity | symmetry; eassumption | eassumption ] | reflexivity ].
Qed.

Lemma rejected_wait_witness :
  let stalled :=
    CPKService.mk (Sample.cpk true)
      (Web3Provider.mk (Ok "0xuser") (Ok 1) (fun _ => Throw (mkError "timeout"))
         (fun _ _ _ => Ok 0))
      (Proxy.mk (Ok "0xsafe")) in
  List.length (error_logs (trace_of (run Sample.env stalled (Buy Sample.buyParams)))) = 0%nat
  /\ List.length (error_logs (trace_of (run Sample.env stalled
        (CreateMarket (Sample.createParams Sample.dai None (Some 5) false))))) = 1%nat.
Proof.
  cbn zeta. split.
  - refine (proj2 (@rejected_wait_logged_by_createMarket_only Sample.env _
                     (Buy Sample.buyParams) "0xhash" _)).
    cbn. tauto.
  - refine (proj2 (@rejected_wait_logged_by_createMarket_only Sample.env _
                     (CreateMarket (Sample.createParams Sample.dai None (Some 5) false))
                     "0xhash" _)).
    cbn. tauto.
Defined.

(** ** Create market: order, identifiers and the returned address *)



(** X10. In every batch [createMarket] submits, the create-market-maker
    call carries the salt, the conditional-tokens address, the collateral,
    the condition ID and the fee for which the address of the market maker
    was predicted, together with the funding of the market data; and a
    successful run returns that predicted address. *)
Theorem createMarket_returns_predicted_address (env : Env) (self : t)
    (p : CPKCreateMarketParams.t) (batch : list Transaction)
    (txOptions : option TxOptions) :
  In (batch, txOptions) (submissions (trace_of (createMarket env self p))) ->
  let marketData := CPKCreateMarketParams.marketData p in
  let factory := CPKCreateMarketParams.marketMakerFactory p in
  let tokens := ConditionalTokenService.address (CPKCreateMarketParams.conditionalTokens p) in
  exists collateral conditionId predicted,
    In (tx_data (MarketMakerFactoryService.address factory)
          (encodeCreateMarketMaker (randomSaltNonce env) tokens collateral conditionId
             (MarketData.spread marketData) (MarketData.funding marketData)
             (calcDistributionHint env (map probability (MarketData.outcomes marketData)))))
       batch
    /\ MarketMakerFactoryService.predictMarketMakerAddress factory (randomSaltNonce env)
         tokens collateral conditionId (CPK.address (cpk self))
         (MarketData.spread marketData) = Ok predicted
    /\ (forall address, result_of (createMarket env self p) = Ok address ->
          address = predicted).
Proof.
  create_market_cases p; submitted.
  all: do 3 eexists; split; [ | split; [ eassumption | ] ].
  all: try (cbn; repeat (first [ left; reflexivity | right ])).
  all: cbn; intros address Haddress; congruence.
Qed.

Lemma createMarket_returns_predicted_address_witness :
  exists collateral conditionId predicted,
    In (tx_data "0xfactory"
          (encodeCreateMarketMaker 424242 "0xct" collateral conditionId (2 # 100) 1000 [1; 1]))
       [ tx_data "0xdai" (encodeApproveUnlimited "0xfactory");
         tx_data "0xdai" (encodeTransferFrom "0xuser" "0xcpk" 1000);
         tx_data "0xfactory"
           (encodeCreateMarketMaker 424242 "0xct" "0xdai" "0xq0xoracle" (2 # 100)
              1000 [1; 1]) ]
    /\ MarketMakerFactoryService.predictMarketMakerAddress Sample.factory 424242 "0xct"
         collateral conditionId "0xcpk" (2 # 100) = Ok predicted
    /\ (forall address,
          result_of (createMarket Sample.env (Sample.self 0)
                       (Sample.createParams Sample.dai (Some "0xq") (Some 5) true))
            = Ok address -> address = predicted).
Proof.
  refine (createMarket_returns_predicted_address Sample.env (Sample.self 0)
            (Sample.createParams Sample.dai (Some "0xq") (Some 5) true)
            _ (Some (mkTxOptions None None)) _).
  left. reflexivity.
Defined.

(** X11. In every batch [createMarket] submits, the condition the market
    maker is created for is the one derived from the question, the oracle
    and the number of outcomes that the prepare-condition call of the same
    batch prepares, and from the number of outcomes of the market data. *)
Theorem createMarket_prepares_the_condition_it_uses (env : Env) (self : t)
    (p : CPKCreateMarketParams.t) (batch : list Transaction) (txOptions : option TxOptions)
    (target factory questionId oracleAddress tokens collateral conditionId : string)
    (outcomeSlotCount saltNonce : Z) (spread : Q) (funding : BigNumber)
    (distributionHint : list BigNumber) :
  In (batch, txOptions) (submissions (trace_of (createMarket env self p))) ->
  In (tx_data target (encodePrepareCondition questionId oracleAddress outcomeSlotCount))
     batch ->
  In (tx_data factory
        (encodeCreateMarketMaker saltNonce tokens collateral conditionId spread funding
           distributionHint)) batch ->
  let conditionalTokens := CPKCreateMarketParams.conditionalTokens p in
  conditionId
    = ConditionalTokenService.getConditionId conditionalTokens questionId oracleAddress
        outcomeSlotCount
  /\ outcomeSlotCount
     = Z.of_nat (List.length (MarketData.outcomes (CPKCreateMarketParams.marketData p)))
  /\ target = ConditionalTokenService.address conditionalTokens
  /\ tokens = ConditionalTokenService.address conditionalTokens.
Proof.
  create_market_cases p; submitted; cbn; intros Hprepare Hcreate;
    repeat match goal with
    | H : False |- _ => destruct H
    | H : _ \/ _ |- _ => destruct H as [H | H]; try discriminate H
    end.
  all: inversion Hprepare; inversion Hcreate; subst; repeat split.
Qed.

Lemma createMarket_prepares_the_condition_it_uses_witness :
  "0xquestion0xoracle"
    = ConditionalTokenService.getConditionId (Sample.conditionalTokens false)
        "0xquestion" "0xoracle" 2.
Proof.
  refine (proj1 (@createMarket_prepares_the_condition_it_uses Sample.env (Sample.self 0)
            (Sample.createParams Sample.dai None (Some 5) false)
            _ (Some (mkTxOptions None None))
            "0xct" "0xfactory" "0xquestion" "0xoracle" "0xct" "0xdai" "0xquestion0xoracle"
            2 424242 (2 # 100) 1000 [1; 1] _ _ _)).
  - left. reflexivity.
  - cbn. tauto.
  - cbn. tauto.
Defined.

(** X12. In every batch [createMarket] submits: the ask-question call is
    there exactly when no question ID was supplied (none, or the empty
    string), and only then was [askQuestionConstant] asked; with a question
    ID supplied, the existence of a condition was queried and the
    prepare-condition call is there exactly when the answer was no. *)
Theorem createMarket_conditional_steps (env : Env) (self : t) (p : CPKCreateMarketParams.t)
    (batch : list Transaction) (txOptions : option TxOptions) :
  In (batch, txOptions) (submissions (trace_of (createMarket env self p))) ->
  let loaded := truthy_string (MarketData.loadedQuestionId (CPKCreateMarketParams.marketData p)) in
  existsb is_ask_question batch = negb loaded
  /\ existsb (fun q => match q with QAskQuestionConstant => true | _ => false end)
       (queries (trace_of (createMarket env self p))) = negb loaded
  /\ (loaded = true ->
      exists conditionId condition_exists,
        In (QDoesConditionExist conditionId) (queries (trace_of (createMarket env self p)))
        /\ ConditionalTokenService.doesConditionExist
             (CPKCreateMarketParams.conditionalTokens p) conditionId = Ok condition_exists
        /\ existsb is_prepare_condition batch = negb condition_exists).
Proof.
  cbn zeta. create_market_cases p; submitted; (split; [ reflexivity | split; [ reflexivity | ] ]).
  all: cbn; intros Htruthy; try discriminate Htruthy.
  all: do 2 eexists; split; [ | split; [ eassumption | reflexivity ] ].
  all: cbn; repeat (first [ left; reflexivity | right ]).
Qed.

Lemma createMarket_conditional_steps_witness :
  existsb is_ask_question
    [ tx_data "0xct" (encodePrepareCondition "0xq" "0xoracle" 2);
      tx_data "0xdai" (encodeApproveUnlimited "0xfactory");
      tx_data "0xdai" (encodeTransferFrom "0xuser" "0xcpk" 1000);
      tx_data "0xfactory"
        (encodeCreateMarketMaker 424242 "0xct" "0xdai" "0xq0xoracle" (2 # 100)
           1000 [1; 1]) ] = false.
Proof.
  refine (proj1 (createMarket_conditional_steps Sample.env (Sample.self 0)
                   (Sample.createParams Sample.dai (Some "0xq") (Some 5) false)
                   _ (Some (mkTxOptions None None)) _)).
  left. reflexivity.
Defined.

(** ** The other static methods *)

(** Runs a static method on every combination of answers. *)
Ltac static_cases :=
  unfold ConditionalTokenStatic.prepareCondition, ConditionalTokenStatic.getQuestionId,
    ConditionalTokenStatic.reportPayouts, ConditionalTokenStatic.setApprovalForAll,
    ConditionalTokenStatic.isApprovedForAll, ConditionalTokenStatic.contractAddress,
    ConditionalTokenStatic.getAddress, ConditionalTokenStatic.sendTransaction,
    ConditionalTokenStatic.did, ConditionalTokenStatic.sret, ConditionalTokenStatic.sthrow;
  cbn; repeat (next_answer; cbn).

(** X13. The static [prepareCondition]: the condition ID it returns is the
    hash of the oracle, the question and the outcome count that the
    transaction it sent carries, the count being 2 when left out.  Outside
    development the oracle is the arbitrator contract of the network and the
    signer is not asked for its address; in development the oracle is the
    signer. *)
Theorem static_prepareCondition_id_of_sent_call (env : Env)
    (runtime : ConditionalTokenStatic.Runtime) (questionId : string)
    (provider : ConditionalTokenStatic.Provider) (networkId : Z)
    (outcomeSlotCount : option Z) (conditionId : string) :
  let m := ConditionalTokenStatic.prepareCondition env runtime questionId provider
             networkId outcomeSlotCount in
  let count := match outcomeSlotCount with Some n => n | None => 2 end in
  snd m = Ok conditionId ->
  exists address oracle,
    ConditionalTokenStatic.sent (fst m)
      = [(address, ConditionalTokenStatic.prepareCondition_request oracle questionId count)]
    /\ getContractAddress env networkId "conditionalTokens" = Ok address
    /\ conditionId = ConditionalTokenStatic.solidityKeccak256 runtime oracle questionId count
    /\ (if match ConditionalTokenStatic.NODE_ENV runtime with
           | Some mode => String.eqb mode "development"
           | None => false
           end
        then ConditionalTokenStatic.signerAddress provider = Ok oracle
        else getContractAddress env networkId "realitioArbitrator" = Ok oracle
             /\ existsb ConditionalTokenStatic.asked_signer (fst m) = false).
Proof.
  cbn zeta. static_cases; intros Hid; try discriminate Hid.
  all: inversion Hid; subst; do 2 eexists; repeat split; (reflexivity || eassumption).
Qed.

Lemma static_prepareCondition_witness :
  exists address oracle,
    ConditionalTokenStatic.sent
      (fst (ConditionalTokenStatic.prepareCondition Sample.env (SampleStatic.runtime None)
              "0xquestion" (SampleStatic.provider []) 1 None))
      = [(address, ConditionalTokenStatic.prepareCondition_request oracle "0xquestion" 2)]
    /\ getContractAddress Sample.env 1 "conditionalTokens" = Ok address
    /\ "0xrealitioArbitrator0xquestion"
       = ConditionalTokenStatic.solidityKeccak256 (SampleStatic.runtime None) oracle
           "0xquestion" 2
    /\ (getContractAddress Sample.env 1 "realitioArbitrator" = Ok oracle
        /\ existsb ConditionalTokenStatic.asked_signer
             (fst (ConditionalTokenStatic.prepareCondition Sample.env
                     (SampleStatic.runtime None) "0xquestion" (SampleStatic.provider [])
                     1 None)) = false).
Proof.
  exact (@static_prepareCondition_id_of_sent_call Sample.env (SampleStatic.runtime None)
           "0xquestion" (SampleStatic.provider []) 1 None "0xrealitioArbitrator0xquestion"
           eq_refl).
Defined.

(** X14. The static [getQuestionId], once the contract address is known and
    the log search has answered: with no log it throws
    [No ConditionPreparation event found for conditionId '...'] naming the
    condition; otherwise it answers the question ID parsed from the first
    log, and it warns exactly when there is more than one log.  The search
    starts at block [0x1] and it sends nothing. *)
Theorem static_getQuestionId_first_log (env : Env) (conditionId : string)
    (provider : ConditionalTokenStatic.Provider) (networkId : Z) (address : string)
    (logs : list ConditionalTokenStatic.Log) :
  let m := ConditionalTokenStatic.getQuestionId env conditionId provider networkId in
  getContractAddress env networkId "conditionalTokens" = Ok address ->
  ConditionalTokenStatic.getLogs provider
    (ConditionalTokenStatic.mkFilter address conditionId "0x1") = Ok logs ->
  snd m
    = match logs with
      | [] =>
          Throw (mkError
            (String.append "No ConditionPreparation event found for conditionId '"
               (String.append conditionId "'")))
      | first :: _ => ConditionalTokenStatic.parsedQuestionId first
      end
  /\ existsb ConditionalTokenStatic.warned (fst m) = Nat.ltb 1 (List.length logs)
  /\ ConditionalTokenStatic.sent (fst m) = [].
Proof.
  cbn zeta. intros Haddress Hlogs.
  unfold ConditionalTokenStatic.getQuestionId, ConditionalTokenStatic.contractAddress,
    ConditionalTokenStatic.did, ConditionalTokenStatic.sret, ConditionalTokenStatic.sthrow.
  rewrite Haddress. cbn. rewrite Hlogs. cbn.
  destruct logs as [| first [| second rest]]; cbn; repeat split.
Qed.

Lemma static_getQuestionId_witness :
  snd (ConditionalTokenStatic.getQuestionId Sample.env "0xcondition"
         (SampleStatic.provider []) 1)
    = Throw (mkError "No ConditionPreparation event found for conditionId '0xcondition'")
  /\ snd (ConditionalTokenStatic.getQuestionId Sample.env "0xcondition"
         (SampleStatic.provider
            [ConditionalTokenStatic.mkLog (Ok "0xfirst");
             ConditionalTokenStatic.mkLog (Ok "0xsecond")]) 1)
    = Ok "0xfirst".
Proof.
  split.
  - exact (proj1 (@static_getQuestionId_first_log Sample.env "0xcondition"
                    (SampleStatic.provider []) 1 "0xconditionalTokens" [] eq_refl eq_refl)).
  - exact (proj1 (@static_getQuestionId_first_log Sample.env "0xcondition"
                    (SampleStatic.provider
                       [ConditionalTokenStatic.mkLog (Ok "0xfirst");
                        ConditionalTokenStatic.mkLog (Ok "0xsecond")]) 1
                    "0xconditionalTokens" _ eq_refl eq_refl)).
Defined.

(** X15. The static [reportPayouts] reports the payout vector [[1; 0]] for
    the question, whatever its arguments: everything goes to the first of
    two outcomes.  The static [setApprovalForAll] only ever grants the
    approval.  Each sends its one transaction to the conditional-tokens
    contract of the network, and nothing when that address is unknown. *)
Theorem static_senders_fixed_arguments (env : Env) (questionId marketMakerAddress : string)
    (networkId : Z) (provider : ConditionalTokenStatic.Provider) :
  let tokens := getContractAddress env networkId "conditionalTokens" in
  ConditionalTokenStatic.sent
    (fst (ConditionalTokenStatic.reportPayouts env questionId networkId provider))
  = match tokens with
    | Ok address => [(address, ConditionalTokenStatic.reportPayouts_request questionId [1; 0])]
    | Throw _ => []
    end
  /\ ConditionalTokenStatic.sent
       (fst (ConditionalTokenStatic.setApprovalForAll env marketMakerAddress provider
               networkId))
     = match tokens with
       | Ok address =>
           [(address, ConditionalTokenStatic.setApprovalForAll_request marketMakerAddress true)]
       | Throw _ => []
       end.
Proof.
  cbn zeta.
  unfold ConditionalTokenStatic.reportPayouts, ConditionalTokenStatic.setApprovalForAll,
    ConditionalTokenStatic.contractAddress, ConditionalTokenStatic.sendTransaction.
  destruct (getContractAddress env networkId "conditionalTokens"); cbn; split; reflexivity.
Qed.

(** ** The lists of [common/constants.ts] *)






Lemma split_comma_not_nil (s : string) : Constants.split_comma s <> [].
Proof.
  destruct s as [| c s]; cbn; [ discriminate | ].
  destruct (Ascii.eqb c ","); [ discriminate | ].
  destruct (Constants.split_comma s); discriminate.
Qed.

(** Joining the fields of [split(',')] with commas gives the string back. *)
Lemma split_comma_join (s : string) : String.concat "," (Constants.split_comma s) = s.
Proof.
  induction s as [| c s IH]; cbn; [ reflexivity | ].
  pose proof (split_comma_not_nil s) as Hnil.
  destruct (Constants.split_comma s) as [| first rest]; [ congruence | ].
  destruct (Ascii.eqb c ",") eqn:Hc.
  - apply Ascii.eqb_eq in Hc. subst c.
    destruct rest as [| second rest]; cbn in *; now rewrite <- IH.
  - destruct rest as [| second rest]; cbn in *; now rewrite <- IH.
Qed.


(** X17. [split(',')] as the constants use it loses nothing: joining the
    entries of [BLACKLISTED_COUNTRIES] with commas gives the variable back
    whenever the variable has no empty field. *)
Theorem blacklisted_countries_round_trip (v : option string) :
  forallb Constants.nonempty (Constants.split_comma (Constants.or_empty v)) = true ->
  String.concat "," (Constants.BLACKLISTED_COUNTRIES v) = Constants.or_empty v.
Proof.
  intros H. unfold Constants.BLACKLISTED_COUNTRIES.
  rewrite <- (split_comma_join (Constants.or_empty v)) at 2.
  f_equal. rewrite forallb_forall in H.
  induction (Constants.split_comma (Constants.or_empty v)) as [| x l IH]; cbn;
    [ reflexivity | ].
  rewrite (H x (or_introl eq_refl)). f_equal. apply IH. intros y Hy. apply H. now right.
Qed.

Lemma blacklisted_countries_round_trip_witness :
  String.concat "," (Constants.BLACKLISTED_COUNTRIES (Some "US,IR,KP")) = "US,IR,KP".
Proof.
  exact (blacklisted_countries_round_trip (Some "US,IR,KP") eq_refl).
Defined.

(** ** What a batch is made of *)

(** X18. Whatever the intent and the answers, a submitted batch is never
    empty; each of its calls has a target and either a payload or an
    attached native value, never both and never neither; and its last call
    is the operation of the intent itself or the transfer of its proceeds,
    never a wrap, an approval or a transfer from the user. *)
Theorem submitted_batch_well_formed (env : Env) (self : t) (i : intent)
    (batch : list Transaction) (txOptions : option TxOptions) :
  In (batch, txOptions) (submissions (trace_of (run env self i))) ->
  batch <> []
  /\ forallb (fun tx => match data tx, value tx with
                        | Some _, None => true
                        | None, Some _ => true
                        | _, _ => false
                        end) batch = true
  /\ exists body final,
       batch = body ++ [final]
       /\ (is_wrap final || is_approve final || is_transfer_from final
           || is_set_approval final)%bool = false.
Proof.
  intent_cases i; submitted; (split; [ discriminate | split; [ reflexivity | ] ]).
  all: match goal with
       | |- exists body final, ?b = _ /\ _ =>
           exists (removelast b), (last b (tx_value "" 0)); split; reflexivity
       end.
Qed.

Lemma submitted_batch_well_formed_witness :
  [ tx_data "0xdai" (encodeApproveUnlimited "0xmm");
    tx_data "0xdai" (encodeTransferFrom "0xuser" "0xcpk" 100);
    tx_data "0xmm" (encodeBuy 100 1 95) ] <> [].
Proof.
  refine (proj1 (submitted_batch_well_formed Sample.env (Sample.self 0)
                   (Buy Sample.buyParams) _ None _)).
  left. reflexivity.
Defined.
